(** * vec2js: two-dimensional vector operations

    A shallow embedding of the [vec2js] module (construction, algebra,
    metrics and transforms on pairs of numbers) together with the
    properties its specification states.

    The module is embedded twice, from the same source text.
    - [Vec2Js] takes [Scalar] to be the real numbers.  It carries the
      properties that do not depend on how numbers are rounded: the call
      shapes of the curried operations, which calls throw, and what
      [toPolar] returns.  The theorems over it that are labelled
      "Exact arithmetic" are identities of the module's formulas over the
      reals; the numbers the code computes can depart from them.
    - [Vec2Js64] takes [number] to be the IEEE 754 binary64 format, with the
      rounding, overflow to [Infinity], underflow to [0] and [NaN] of the
      numbers JavaScript computes with.  It carries the properties of the
      computed values.

    Modelling choices common to both.
    - [Vec2] is the two-element tuple [[Scalar, Scalar]]; [a[0]] and [a[1]]
      are [fst a] and [snd a].
    - [assert.notDeepEqual] throws an [AssertionError]; a function that
      calls it returns in the error monad [Except].
    - the binary operations of the module are wrapped by the default export
      of [lodash.curryright], imported under the name [curry]; a wrapped
      function can be called with both arguments at once ([call2]) or with
      one argument and then another ([call1]). *)

From Stdlib Require Import Floats Bool ZArith.
From Stdlib Require Import Reals Lra Psatz List.
Import ListNotations.

Open Scope R_scope.

(** ** Data model *)

(** [type Scalar = number] *)
Abbreviation Scalar := R (only parsing).

(** [type Vec2 = [Scalar, Scalar]] *)
Definition Vec2 : Type := (Scalar * Scalar)%type.

(** ** Exceptions *)

Inductive Error : Type :=
| AssertionError.

Inductive Except (A : Type) : Type :=
| Ok (a : A)
| Throw (e : Error).

Arguments Ok {A} a.
Arguments Throw {A} e.

Definition bind {A B : Type} (m : Except A) (k : A -> Except B) : Except B :=
  match m with
  | Ok a => k a
  | Throw e => Throw e
  end.

Notation "m ;; k" := (bind m (fun _ => k))
  (at level 61, right associativity).

(** ** The imported collaborators *)

(** [assert.notDeepEqual(actual, expected)] on two-element arrays of numbers:
    the arrays are deeply equal when both components are. *)
Module Assert.

Definition deepEqual (actual expected : Vec2) : bool :=
  if Req_dec_T (fst actual) (fst expected)
  then if Req_dec_T (snd actual) (snd expected) then true else false
  else false.

Definition notDeepEqual (actual expected : Vec2) : Except unit :=
  if deepEqual actual expected then Throw AssertionError else Ok tt.

End Assert.

Module Math.

Definition sqrt (x : Scalar) : Scalar := R_sqrt.sqrt x.
Definition cos (x : Scalar) : Scalar := Rtrigo_def.cos x.
Definition sin (x : Scalar) : Scalar := Rtrigo_def.sin x.
Definition acos (x : Scalar) : Scalar := Ratan.acos x.

End Math.

(** [lodash.curryright] applied to a function [func] of two parameters.
    Calling the wrapper with two arguments invokes [func] on them in their
    positional order.  Calling it with one argument holds that argument as a
    right partial and returns a function of one argument; when that function
    is called, its argument is placed before the held one and [func] is
    invoked on the two. *)
Module Lodash.

Record Curried (A B C : Type) : Type := curryRight { func : A -> B -> C }.

Arguments curryRight {A B C} func.
Arguments func {A B C} c.

(** [g(a, b)] *)
Definition call2 {A B C : Type} (g : Curried A B C) (a : A) (b : B) : C :=
  func g a b.

(** [g(held)], a function awaiting the remaining (first) argument *)
Definition call1 {A B C : Type} (g : Curried A B C) (held : B) : A -> C :=
  fun arg => func g arg held.

End Lodash.

Import Lodash.

Definition curry {A B C : Type} (f : A -> B -> C) : Curried A B C :=
  curryRight f.

(** An element of the array that [toPolar] builds: a number, or a curried
    function still awaiting an argument. *)
Inductive Elem : Type :=
| Num (s : Scalar)
| Fn (k : Vec2 -> Except Scalar).

(** ** The module *)

Module Vec2Js.

Definition zero : Vec2 := (0, 0).

Definition negate (a : Vec2) : Vec2 := (- fst a, - snd a).

Definition add : Curried Vec2 Vec2 Vec2 :=
  curry (fun a b => (fst a + fst b, snd a + snd b)).

Definition sub : Curried Vec2 Vec2 Vec2 :=
  curry (fun a b => (fst a - fst b, snd a - snd b)).

Definition scale : Curried Vec2 Scalar Vec2 :=
  curry (fun a b => (fst a * b, snd a * b)).

Definition dot : Curried Vec2 Vec2 Scalar :=
  curry (fun a b => fst a * fst b + snd a * snd b).

Definition length (a : Vec2) : Scalar := Math.sqrt (call2 dot a a).

Definition magnitude : Vec2 -> Scalar := length.

Definition norm : Vec2 -> Scalar := length.

Definition unit (a : Vec2) : Except Vec2 :=
  Assert.notDeepEqual a (0, 0) ;;
  Ok (call2 scale a (1 / length a)).

Definition normal (a : Vec2) : Except Vec2 := unit (snd a, - fst a).

Definition distance : Curried Vec2 Vec2 Scalar :=
  curry (fun a b => length (call2 sub a b)).

Definition angle : Curried Vec2 Vec2 (Except Scalar) :=
  curry (fun a b =>
    Assert.notDeepEqual a (0, 0) ;;
    Assert.notDeepEqual b (0, 0) ;;
    Ok (Math.acos (call2 dot a b / (length a * length b)))).

Definition rotate : Curried Vec2 Scalar Vec2 :=
  curry (fun a angle =>
    let c := Math.cos angle in
    let s := Math.sin angle in
    (fst a * c - snd a * s, fst a * s + snd a * c)).

Definition project : Curried Vec2 Vec2 (Except Vec2) :=
  curry (fun a b =>
    Assert.notDeepEqual b (0, 0) ;;
    Ok (call2 scale b (call2 dot a b / call2 dot b b))).

Definition fromPolar (p : Vec2) : Vec2 :=
  let '(angle, length) := p in
  call2 rotate (length, 0) angle.

Definition toPolar (a : Vec2) : list Elem :=
  [Fn (call1 angle a); Num (length a)].

End Vec2Js.

Import Vec2Js.

(** ** Invocations

    A fully applied call of one exported operation, and the value or the
    exception it produces.  [invoke] only dispatches to the operation and
    tags its result; an operation that contains no assertion returns. *)

Inductive Value : Type :=
| VScalar (s : Scalar)
| VVec2 (v : Vec2)
| VArray (l : list Elem).

Inductive Operation : Type :=
| OpZero
| OpFromPolar (p : Vec2)
| OpToPolar (a : Vec2)
| OpNegate (a : Vec2)
| OpAdd (a b : Vec2)
| OpSub (a b : Vec2)
| OpScale (a : Vec2) (b : Scalar)
| OpDot (a b : Vec2)
| OpLength (a : Vec2)
| OpMagnitude (a : Vec2)
| OpNorm (a : Vec2)
| OpNormal (a : Vec2)
| OpUnit (a : Vec2)
| OpDistance (a b : Vec2)
| OpAngle (a b : Vec2)
| OpRotate (a : Vec2) (angle : Scalar)
| OpProject (a b : Vec2).

Definition fmap {A B : Type} (f : A -> B) (m : Except A) : Except B :=
  bind m (fun a => Ok (f a)).

Definition invoke (op : Operation) : Except Value :=
  match op with
  | OpZero => Ok (VVec2 zero)
  | OpFromPolar p => Ok (VVec2 (fromPolar p))
  | OpToPolar a => Ok (VArray (toPolar a))
  | OpNegate a => Ok (VVec2 (negate a))
  | OpAdd a b => Ok (VVec2 (call2 add a b))
  | OpSub a b => Ok (VVec2 (call2 sub a b))
  | OpScale a b => Ok (VVec2 (call2 scale a b))
  | OpDot a b => Ok (VScalar (call2 dot a b))
  | OpLength a => Ok (VScalar (length a))
  | OpMagnitude a => Ok (VScalar (magnitude a))
  | OpNorm a => Ok (VScalar (norm a))
  | OpNormal a => fmap VVec2 (normal a)
  | OpUnit a => fmap VVec2 (unit a)
  | OpDistance a b => Ok (VScalar (call2 distance a b))
  | OpAngle a b => fmap VScalar (call2 angle a b)
  | OpRotate a angle => Ok (VVec2 (call2 rotate a angle))
  | OpProject a b => fmap VVec2 (call2 project a b)
  end.

(** The zero-vector preconditions: [violates op] holds when the call [op]
    passes the zero vector where a divisor is computed from it. *)
Definition violates (op : Operation) : Prop :=
  match op with
  | OpUnit a => a = (0, 0)
  | OpNormal a => a = (0, 0)
  | OpAngle a b => a = (0, 0) \/ b = (0, 0)
  | OpProject _ b => b = (0, 0)
  | _ => False
  end.

(** ** The module at binary64 numbers

    The same source text, with [number] as the IEEE 754 binary64 format:
    the arithmetic operators and [Math.sqrt] are the primitive, correctly
    rounded operations; [==] on numbers is IEEE equality, under which [-0]
    equals [0] and [NaN] differs from itself.  [Math.cos], [Math.sin] and
    [Math.acos] are implementation-approximated in ECMAScript: the operations
    that call them take the library as a parameter, and a theorem assumes of
    it only what it states. *)

Record MathLib : Type := {
  Math_cos : float -> float;
  Math_sin : float -> float;
  Math_acos : float -> float
}.

Module Vec2Js64.

Import PrimFloat.
Local Open Scope float_scope.

(** [type Vec2 = [Scalar, Scalar]] *)
Definition Vec2 : Type := (float * float)%type.

(** [Math.PI] *)
Definition Math_PI : float := 0x1.921fb54442d18p+1.

(** [Math.sqrt] *)
Definition Math_sqrt (x : float) : float := PrimFloat.sqrt x.

(** The comparison of [assert.notDeepEqual] on two arrays of two numbers:
    both components are [==]. *)
Definition deepEqual (actual expected : Vec2) : bool :=
  (fst actual =? fst expected) && (snd actual =? snd expected).

Definition notDeepEqual (actual expected : Vec2) : Except Datatypes.unit :=
  if deepEqual actual expected then Throw AssertionError else Ok tt.

Definition zero : Vec2 := (0, 0).

Definition negate (a : Vec2) : Vec2 := (- fst a, - snd a).

Definition add : Curried Vec2 Vec2 Vec2 :=
  curry (fun a b => (fst a + fst b, snd a + snd b)).

Definition sub : Curried Vec2 Vec2 Vec2 :=
  curry (fun a b => (fst a - fst b, snd a - snd b)).

Definition scale : Curried Vec2 float Vec2 :=
  curry (fun a b => (fst a * b, snd a * b)).

Definition dot : Curried Vec2 Vec2 float :=
  curry (fun a b => fst a * fst b + snd a * snd b).

Definition length (a : Vec2) : float := Math_sqrt (call2 dot a a).

Definition magnitude : Vec2 -> float := length.

Definition norm : Vec2 -> float := length.

Definition unit (a : Vec2) : Except Vec2 :=
  notDeepEqual a (0, 0) ;;
  Ok (call2 scale a (1 / length a)).

Definition normal (a : Vec2) : Except Vec2 := unit (snd a, - fst a).

Definition distance : Curried Vec2 Vec2 float :=
  curry (fun a b => length (call2 sub a b)).

Definition angle (M : MathLib) : Curried Vec2 Vec2 (Except float) :=
  curry (fun a b =>
    notDeepEqual a (0, 0) ;;
    notDeepEqual b (0, 0) ;;
    Ok (Math_acos M (call2 dot a b / (length a * length b)))).

Definition rotate (M : MathLib) : Curried Vec2 float Vec2 :=
  curry (fun a angle =>
    let c := Math_cos M angle in
    let s := Math_sin M angle in
    (fst a * c - snd a * s, fst a * s + snd a * c)).

Definition project : Curried Vec2 Vec2 (Except Vec2) :=
  curry (fun a b =>
    notDeepEqual b (0, 0) ;;
    Ok (call2 scale b (call2 dot a b / call2 dot b b))).

Definition fromPolar (M : MathLib) (p : Vec2) : Vec2 :=
  let '(angle, length) := p in
  call2 (rotate M) (length, 0) angle.

End Vec2Js64.

(** What ECMAScript fixes of [Math.acos]: the result is [NaN] when the
    argument is [NaN] or lies outside [[-1, 1]], and otherwise ranges from
    [+0] to [Math.PI]. *)
Definition acos_conforms (M : MathLib) : Prop :=
  forall x : float,
    if (PrimFloat.leb (-1)%float x && PrimFloat.leb x 1%float)%bool
    then (PrimFloat.leb 0%float (Math_acos M x)
          && PrimFloat.leb (Math_acos M x) Vec2Js64.Math_PI)%bool = true
    else PrimFloat.is_nan (Math_acos M x) = true.

(** A coarse [Math] library, right at the arguments [0] (for [cos] and
    [sin]) and [1] (for [acos]) only; it shows that what the theorems below
    assume of a [Math] library can be met. *)
Definition coarse_math : MathLib := {|
  Math_cos := fun _ => 1%float;
  Math_sin := fun _ => 0%float;
  Math_acos := fun x =>
    if (PrimFloat.leb (-1)%float x && PrimFloat.leb x 1%float)%bool
    then 0%float else PrimFloat.nan
|}.

(** ** Calling conventions of the curried operations *)

Section Currying.

Context {A B C : Type}.
Variable f : A -> B -> C.

Lemma call2_curry (a : A) (b : B) : call2 (curry f) a b = f a b.
Proof. reflexivity. Qed.

Lemma call1_curry (held : B) (arg : A) :
  call1 (curry f) held arg = f arg held.
Proof. reflexivity. Qed.

Lemma call1_call2 (g : Curried A B C) (held : B) (arg : A) :
  call1 g held arg = call2 g arg held.
Proof. reflexivity. Qed.

End Currying.

(** The unit tests of the curried call shape. *)

Example test_sub_full : call2 sub (1, 2) (3, 4) = (-2, -2).
Proof. cbn. f_equal; lra. Qed.

Example test_sub_curried : call1 sub (1, 2) (3, 4) = (2, 2).
Proof. cbn. f_equal; lra. Qed.

Example test_sub_curried_swapped : call1 sub (3, 4) (1, 2) = (-2, -2).
Proof. cbn. f_equal; lra. Qed.

Example test_scale_curried : call1 scale 3 (1, 2) = (3, 6).
Proof. cbn. f_equal; lra. Qed.

Example test_add_curried : call1 add (1, 2) (3, 4) = (4, 6).
Proof. cbn. f_equal; lra. Qed.

Example test_dot_curried : call1 dot (1, 2) (3, 4) = 11.
Proof. cbn. lra. Qed.

Example test_rotate_curried : call1 rotate (PI / 2) (1, 0) = (0, 1).
Proof.
  cbn. unfold Math.cos, Math.sin. rewrite cos_PI2, sin_PI2. f_equal; lra.
Qed.

(** ** Assertions *)

Lemma deepEqual_true_iff (a b : Vec2) :
  Assert.deepEqual a b = true <-> a = b.
Proof.
  unfold Assert.deepEqual. destruct a as [a0 a1], b as [b0 b1]; cbn.
  destruct (Req_dec_T a0 b0) as [E0 | N0];
    [destruct (Req_dec_T a1 b1) as [E1 | N1] |]; split; intro H;
    try discriminate; try reflexivity; try congruence.
Qed.

Lemma notDeepEqual_cases (a b : Vec2) :
  (a = b /\ Assert.notDeepEqual a b = Throw AssertionError) \/
  (a <> b /\ Assert.notDeepEqual a b = Ok tt).
Proof.
  unfold Assert.notDeepEqual.
  destruct (Assert.deepEqual a b) eqn:E.
  - left. split; [apply deepEqual_true_iff; exact E | reflexivity].
  - right. split; [| reflexivity].
    intro H. apply deepEqual_true_iff in H. congruence.
Qed.

Lemma notDeepEqual_passes (a b : Vec2) :
  a <> b -> Assert.notDeepEqual a b = Ok tt.
Proof.
  intro N. destruct (notDeepEqual_cases a b) as [[E _] | [_ E]];
    [contradiction | exact E].
Qed.

Lemma notDeepEqual_same (a : Vec2) :
  Assert.notDeepEqual a a = Throw AssertionError.
Proof.
  destruct (notDeepEqual_cases a a) as [[_ E] | [N _]];
    [exact E | contradiction].
Qed.

(** ** Partial application *)

(** C1, as the specification words it, fails: [sub([1, 2])([3, 4])] is
    [[2, 2]], while [sub([1, 2], [3, 4])] is [[-2, -2]]. *)
Lemma sub_partial_first_bound_first_fails :
  call1 sub (1, 2) (3, 4) = (2, 2) /\
  call2 sub (1, 2) (3, 4) = (-2, -2) /\
  call1 sub (1, 2) (3, 4) <> call2 sub (1, 2) (3, 4).
Proof.
  repeat split; cbn; try (f_equal; lra).
  intro H. injection H as H0 H1. lra.
Qed.

(** C1 (amended): partially applying [sub] with [a] and then supplying [b]
    computes [sub(b, a)], the componentwise difference [b - a]: the argument
    supplied alone is bound as the second parameter.  The same binding order
    holds for every curried binary operation. *)
Theorem partial_application_binds_second_parameter :
  (forall a b : Vec2,
      call1 sub a b = call2 sub b a /\
      call1 sub a b = (fst b - fst a, snd b - snd a) /\
      call2 sub a b = (fst a - fst b, snd a - snd b)) /\
  (forall a b : Vec2, call1 add a b = call2 add b a) /\
  (forall (s : Scalar) (v : Vec2), call1 scale s v = call2 scale v s) /\
  (forall a b : Vec2, call1 dot a b = call2 dot b a) /\
  (forall a b : Vec2, call1 distance a b = call2 distance b a) /\
  (forall a b : Vec2, call1 angle a b = call2 angle b a) /\
  (forall (theta : Scalar) (v : Vec2),
      call1 rotate theta v = call2 rotate v theta) /\
  (forall a b : Vec2, call1 project a b = call2 project b a).
Proof.
  repeat split; intros; apply call1_call2.
Qed.

(** C10: called with one argument, [scale] and [rotate] bind it as the
    second parameter: [scale(s)(v) = scale(v, s)] and
    [rotate(theta)(v) = rotate(v, theta)]. *)
Theorem scale_rotate_take_second_parameter_first :
  forall (v : Vec2) (s theta : Scalar),
    call1 scale s v = call2 scale v s /\
    call1 scale s v = (fst v * s, snd v * s) /\
    call1 rotate theta v = call2 rotate v theta /\
    call1 rotate theta v =
      (fst v * Math.cos theta - snd v * Math.sin theta,
       fst v * Math.sin theta + snd v * Math.cos theta).
Proof.
  intros v s theta. repeat split.
Qed.

(** ** Cartesian to polar *)

Lemma toPolar_shape (v : Vec2) :
  exists k, toPolar v = [Fn k; Num (length v)] /\
            forall b, k b = call2 angle b v.
Proof.
  exists (call1 angle v). split; [reflexivity |].
  intro b. apply call1_call2.
Qed.

(** C2 at [[1, 1]]: the first element of [toPolar([1, 1])] is no number; it
    is the function [angle([1, 1])], still awaiting a vector. *)
Theorem toPolar_first_element_is_a_function :
  (forall s : Scalar, nth_error (toPolar (1, 1)) 0 <> Some (Num s)) /\
  nth_error (toPolar (1, 1)) 0 = Some (Fn (call1 angle (1, 1))) /\
  nth_error (toPolar (1, 1)) 1 = Some (Num (length (1, 1))).
Proof.
  repeat split. intros s H. discriminate H.
Qed.

(** ** Failures *)

Lemma unit_throws_iff (v : Vec2) (e : Error) :
  unit v = Throw e <-> v = (0, 0).
Proof.
  destruct e. unfold unit.
  destruct (notDeepEqual_cases v (0, 0)) as [[E ->] | [N ->]]; cbn;
    split; intro H; try discriminate; try contradiction; auto.
Qed.

Lemma perpendicular_zero_iff (v : Vec2) :
  (snd v, - fst v) = (0, 0) <-> v = (0, 0).
Proof.
  destruct v as [x y]; cbn. split; intro H; injection H as H0 H1.
  - f_equal; lra.
  - f_equal; lra.
Qed.

Lemma normal_throws_iff (v : Vec2) (e : Error) :
  normal v = Throw e <-> v = (0, 0).
Proof.
  unfold normal. rewrite unit_throws_iff. apply perpendicular_zero_iff.
Qed.

Lemma angle_throws_iff (a b : Vec2) (e : Error) :
  call2 angle a b = Throw e <-> a = (0, 0) \/ b = (0, 0).
Proof.
  destruct e. cbn.
  destruct (notDeepEqual_cases a (0, 0)) as [[Ea ->] | [Na ->]];
    destruct (notDeepEqual_cases b (0, 0)) as [[Eb ->] | [Nb ->]]; cbn;
    split; intro H; try discriminate; try tauto.
Qed.

Lemma project_throws_iff (a b : Vec2) (e : Error) :
  call2 project a b = Throw e <-> b = (0, 0).
Proof.
  destruct e. cbn.
  destruct (notDeepEqual_cases b (0, 0)) as [[E ->] | [N ->]]; cbn;
    split; intro H; try discriminate; try contradiction; auto.
Qed.

Lemma fmap_throws_iff {A B : Type} (f : A -> B) (m : Except A) (e : Error) :
  fmap f m = Throw e <-> m = Throw e.
Proof.
  destruct m; cbn; split; intro H; try discriminate; congruence.
Qed.

(** C3, as the specification words it, fails: [normal] is none of [unit],
    [angle] and [project], and [normal([0, 0])] returns no value. *)
Lemma normal_of_zero_throws :
  normal (0, 0) = Throw AssertionError /\
  invoke (OpNormal (0, 0)) = Throw AssertionError /\
  ~ (exists v : Vec2, normal (0, 0) = Ok v).
Proof.
  assert (H : normal (0, 0) = Throw AssertionError)
    by (apply normal_throws_iff; reflexivity).
  repeat split.
  - exact H.
  - cbn [invoke]. rewrite H. reflexivity.
  - intros [v Hv]. rewrite H in Hv. discriminate Hv.
Qed.

(** C3 (amended): four operations can fail, [unit], [normal], [angle] and
    [project]; a fully applied call throws, and what it throws is an
    [AssertionError], if and only if it violates the zero-vector precondition
    ([unit] and [normal] when [v = (0,0)], [angle] when [a = (0,0)] or
    [b = (0,0)], [project] when [b = (0,0)]); every other call, and every
    call that respects the precondition, returns a value. *)
Theorem invoke_throws_iff_precondition_violated :
  (forall (op : Operation) (e : Error),
      invoke op = Throw e <-> violates op) /\
  (forall op : Operation, ~ violates op -> exists v, invoke op = Ok v) /\
  (forall (op : Operation) (e : Error),
      invoke op = Throw e -> e = AssertionError).
Proof.
  assert (T : forall op e, invoke op = Throw e <-> violates op).
  { intros op e. destruct op; cbn [invoke violates];
      try (split; [discriminate | contradiction]);
      rewrite fmap_throws_iff.
    - apply normal_throws_iff.
    - apply unit_throws_iff.
    - apply angle_throws_iff.
    - apply project_throws_iff. }
  repeat split.
  - apply T.
  - apply T.
  - intros op N. destruct (invoke op) as [v | e] eqn:E.
    + exists v. reflexivity.
    + apply T in E. contradiction.
  - intros op e _. destruct e. reflexivity.
Qed.

Lemma invoke_throws_iff_precondition_violated_witness :
  ~ violates (OpUnit (3, 4)) /\
  exists v : Value, invoke (OpUnit (3, 4)) = Ok v.
Proof.
  assert (N : ~ violates (OpUnit (3, 4))).
  { cbn. intro H. injection H as H0 H1. lra. }
  split; [exact N |].
  destruct invoke_throws_iff_precondition_violated as [_ [R _]].
  apply (R (OpUnit (3, 4)) N).
Defined.

(** ** Dot product and length *)

Lemma dot_components (a b : Vec2) :
  call2 dot a b = fst a * fst b + snd a * snd b.
Proof. reflexivity. Qed.

Lemma dot_self_nonneg (v : Vec2) : 0 <= call2 dot v v.
Proof. rewrite dot_components. nra. Qed.

Lemma dot_self_zero_iff (v : Vec2) : call2 dot v v = 0 <-> v = (0, 0).
Proof.
  rewrite dot_components. destruct v as [x y]; cbn. split; intro H.
  - assert (x = 0) by nra. assert (y = 0) by nra. subst. reflexivity.
  - injection H as -> ->. lra.
Qed.

Lemma dot_self_pos (v : Vec2) : v <> (0, 0) -> 0 < call2 dot v v.
Proof.
  intro N. destruct (dot_self_nonneg v) as [P | Z]; [exact P |].
  exfalso. apply N. apply dot_self_zero_iff. symmetry. exact Z.
Qed.

Lemma dot_scale_l (a b : Vec2) (k : Scalar) :
  call2 dot (call2 scale a k) b = k * call2 dot a b.
Proof. rewrite !dot_components. cbn. ring. Qed.

Lemma dot_scale_r (a b : Vec2) (k : Scalar) :
  call2 dot a (call2 scale b k) = k * call2 dot a b.
Proof. rewrite !dot_components. cbn. ring. Qed.

Lemma length_nonneg (v : Vec2) : 0 <= length v.
Proof. apply sqrt_pos. Qed.

Lemma length_sqr (v : Vec2) : length v * length v = call2 dot v v.
Proof. apply sqrt_sqrt. apply dot_self_nonneg. Qed.

Lemma length_zero_iff (v : Vec2) : length v = 0 <-> v = (0, 0).
Proof.
  rewrite <- dot_self_zero_iff. unfold length, Math.sqrt. split; intro H.
  - apply sqrt_eq_0; [apply dot_self_nonneg | exact H].
  - rewrite H. apply sqrt_0.
Qed.

Lemma length_pos (v : Vec2) : v <> (0, 0) -> 0 < length v.
Proof.
  intro N. destruct (length_nonneg v) as [P | Z]; [exact P |].
  exfalso. apply N. apply length_zero_iff. symmetry. exact Z.
Qed.

Lemma length_of_square (v : Vec2) (l : Scalar) :
  0 <= l -> call2 dot v v = l * l -> length v = l.
Proof.
  intros P E. unfold length, Math.sqrt. rewrite E. apply sqrt_square. exact P.
Qed.

Lemma length_scale (v : Vec2) (k : Scalar) :
  0 <= k -> length (call2 scale v k) = k * length v.
Proof.
  intro P. apply length_of_square.
  - apply Rmult_le_pos; [exact P | apply length_nonneg].
  - rewrite dot_scale_l, dot_scale_r.
    replace (k * length v * (k * length v))
      with (k * (k * (length v * length v))) by ring.
    rewrite length_sqr. reflexivity.
Qed.

(** The unit tests of [length]. *)

Example test_length_3_4 : length (3, 4) = 5.
Proof. apply length_of_square; [lra | cbn; lra]. Qed.

Example test_length_zero : length (0, 0) = 0.
Proof. apply length_zero_iff. reflexivity. Qed.

(** Exact arithmetic: [length(v)] is the Euclidean norm [sqrt(dot(v, v))]; it is never
    negative, and it is [0] exactly for the zero vector; [magnitude] and
    [norm] are the function [length]. *)
Theorem length_is_the_euclidean_norm :
  (forall v : Vec2,
      length v = Math.sqrt (call2 dot v v) /\
      length v >= 0 /\
      (length v = 0 <-> v = (0, 0))) /\
  magnitude = length /\
  norm = length.
Proof.
  split; [| split; reflexivity].
  intro v. split; [reflexivity |]. split.
  - apply Rle_ge. apply length_nonneg.
  - apply length_zero_iff.
Qed.

(** ** Unit vectors *)

Lemma unit_returns (v : Vec2) :
  v <> (0, 0) -> unit v = Ok (call2 scale v (1 / length v)).
Proof.
  intro N. unfold unit. rewrite (notDeepEqual_passes _ _ N). reflexivity.
Qed.

Lemma length_normalised (v : Vec2) :
  v <> (0, 0) -> length (call2 scale v (1 / length v)) = 1.
Proof.
  intro N. pose proof (length_pos v N) as P.
  rewrite length_scale.
  - field. lra.
  - apply Rlt_le. apply Rdiv_lt_0_compat; lra.
Qed.

Example test_unit_of_zero : unit (0, 0) = Throw AssertionError.
Proof. apply unit_throws_iff. reflexivity. Qed.

(** Exact arithmetic: for a non-zero [v], [unit(v)] is [scale(v, 1/length(v))], and its
    length is [1] (exactly so in real arithmetic, hence within every
    tolerance). *)
Theorem unit_scales_to_length_one :
  forall v : Vec2,
    v <> (0, 0) ->
    unit v = Ok (call2 scale v (1 / length v)) /\
    exists u : Vec2, unit v = Ok u /\ length u = 1.
Proof.
  intros v N. split; [apply unit_returns; exact N |].
  exists (call2 scale v (1 / length v)). split.
  - apply unit_returns. exact N.
  - apply length_normalised. exact N.
Qed.

Lemma unit_scales_to_length_one_witness :
  (3, 4) <> (0, 0) /\
  unit (3, 4) = Ok (call2 scale (3, 4) (1 / length (3, 4))) /\
  exists u : Vec2, unit (3, 4) = Ok u /\ length u = 1.
Proof.
  assert (N : (3, 4) <> ((0, 0) : Vec2)).
  { intro H. injection H as H0 H1. lra. }
  split; [exact N |].
  apply (unit_scales_to_length_one (3, 4) N).
Defined.

(** ** Angles *)

Lemma cauchy_schwarz (a b : Vec2) :
  call2 dot a b * call2 dot a b <= call2 dot a a * call2 dot b b.
Proof.
  rewrite !dot_components. destruct a as [ax ay], b as [bx by']; cbn.
  pose proof (Rle_0_sqr (ax * by' - ay * bx)) as H. unfold Rsqr in H. nra.
Qed.

Lemma cosine_ratio_bounds (a b : Vec2) :
  a <> (0, 0) -> b <> (0, 0) ->
  -1 <= call2 dot a b / (length a * length b) <= 1.
Proof.
  intros Na Nb.
  pose proof (length_pos a Na) as Pa. pose proof (length_pos b Nb) as Pb.
  pose proof (cauchy_schwarz a b) as CS.
  rewrite <- (length_sqr a), <- (length_sqr b) in CS.
  set (d := call2 dot a b) in *. set (la := length a) in *.
  set (lb := length b) in *.
  assert (Pm : 0 < la * lb) by (apply Rmult_lt_0_compat; assumption).
  assert (Hd : d * d <= (la * lb) * (la * lb)) by nra.
  assert (Hb : - (la * lb) <= d <= la * lb) by nra.
  assert (Hq : d / (la * lb) * (la * lb) = d) by (field; lra).
  split; nra.
Qed.

Lemma angle_returns (a b : Vec2) :
  a <> (0, 0) -> b <> (0, 0) ->
  call2 angle a b =
    Ok (Math.acos (call2 dot a b / (length a * length b))).
Proof.
  intros Na Nb. cbn.
  rewrite (notDeepEqual_passes _ _ Na), (notDeepEqual_passes _ _ Nb).
  reflexivity.
Qed.

(** The cosine of the angle between two non-zero vectors is the normalised
    dot product: the argument given to [Math.acos] lies in its domain. *)
Lemma angle_cosine (a b : Vec2) :
  a <> (0, 0) -> b <> (0, 0) ->
  exists theta : Scalar,
    call2 angle a b = Ok theta /\
    Math.cos theta = call2 dot a b / (length a * length b).
Proof.
  intros Na Nb. eexists. split; [apply angle_returns; assumption |].
  apply cos_acos. apply cosine_ratio_bounds; assumption.
Qed.

Example test_angle_1_0_and_1_1 : call2 angle (1, 0) (1, 1) = Ok (PI / 4).
Proof.
  rewrite angle_returns by (intro H; injection H as H0; lra).
  assert (L0 : length (1, 0) = 1)
    by (apply length_of_square; [lra | cbn; lra]).
  assert (L1 : length (1, 1) = R_sqrt.sqrt 2)
    by (unfold length, Math.sqrt; f_equal; cbn; lra).
  rewrite L0, L1. f_equal. unfold Math.acos.
  rewrite <- acos_inv_sqrt2. f_equal. cbn.
  pose proof (sqrt_lt_R0 2 ltac:(lra)) as P. field. lra.
Qed.

Example test_angle_of_zero : call2 angle (0, 0) (1, 0) = Throw AssertionError.
Proof. apply angle_throws_iff. left. reflexivity. Qed.

(** Exact arithmetic: for non-zero [a] and [b], [angle(a, b)] is
    [acos(dot(a,b) / (length(a)*length(b)))], an angle in [[0, PI]]. *)
Theorem angle_is_acos_of_normalised_dot :
  forall a b : Vec2,
    a <> (0, 0) -> b <> (0, 0) ->
    exists theta : Scalar,
      call2 angle a b = Ok theta /\
      theta = Math.acos (call2 dot a b / (length a * length b)) /\
      0 <= theta <= PI.
Proof.
  intros a b Na Nb. eexists. split; [apply angle_returns; assumption |].
  split; [reflexivity |]. apply acos_bound.
Qed.

Lemma angle_is_acos_of_normalised_dot_witness :
  (1, 0) <> (0, 0) /\ (1, 1) <> (0, 0) /\
  exists theta : Scalar,
    call2 angle (1, 0) (1, 1) = Ok theta /\
    theta = Math.acos (call2 dot (1, 0) (1, 1)
                       / (length (1, 0) * length (1, 1))) /\
    0 <= theta <= PI.
Proof.
  assert (Na : (1, 0) <> ((0, 0) : Vec2)).
  { intro H. injection H as H0. lra. }
  assert (Nb : (1, 1) <> ((0, 0) : Vec2)).
  { intro H. injection H as H0 H1. lra. }
  split; [exact Na |]. split; [exact Nb |].
  apply (angle_is_acos_of_normalised_dot (1, 0) (1, 1) Na Nb).
Defined.

(** ** Rotation *)

Lemma rotate_components (v : Vec2) (theta : Scalar) :
  call2 rotate v theta =
    (fst v * Math.cos theta - snd v * Math.sin theta,
     fst v * Math.sin theta + snd v * Math.cos theta).
Proof. reflexivity. Qed.

Lemma dot_rotate_self (v : Vec2) (theta : Scalar) :
  call2 dot (call2 rotate v theta) (call2 rotate v theta) = call2 dot v v.
Proof.
  rewrite rotate_components, !dot_components. cbn [fst snd].
  unfold Math.cos, Math.sin.
  pose proof (sin2_cos2 theta) as H. unfold Rsqr in H.
  destruct v as [x y]; cbn [fst snd]. nra.
Qed.

Lemma rotate_zero (theta : Scalar) : call2 rotate (0, 0) theta = (0, 0).
Proof. rewrite rotate_components. cbn [fst snd]. f_equal; ring. Qed.

Example test_rotate_quarter_turn : call2 rotate (1, 0) (PI / 2) = (0, 1).
Proof.
  rewrite rotate_components. cbn [fst snd]. unfold Math.cos, Math.sin.
  rewrite cos_PI2, sin_PI2. f_equal; lra.
Qed.

(** Exact arithmetic: [rotate(v, theta)] applies the rotation matrix
    [(x cos theta - y sin theta, x sin theta + y cos theta)]; it preserves
    length (exactly so in real arithmetic), and it maps the zero vector to
    the zero vector. *)
Theorem rotate_is_a_length_preserving_rotation :
  forall (v : Vec2) (theta : Scalar),
    call2 rotate v theta =
      (fst v * Math.cos theta - snd v * Math.sin theta,
       fst v * Math.sin theta + snd v * Math.cos theta) /\
    length (call2 rotate v theta) = length v /\
    call2 rotate (0, 0) theta = (0, 0).
Proof.
  intros v theta. split; [apply rotate_components |]. split.
  - unfold length. rewrite dot_rotate_self. reflexivity.
  - apply rotate_zero.
Qed.

(** ** Normals *)

Lemma dot_perpendicular (v : Vec2) (k : Scalar) :
  call2 dot v (call2 scale (snd v, - fst v) k) = 0.
Proof. rewrite dot_components. cbn. ring. Qed.

Lemma normal_returns (v : Vec2) :
  v <> (0, 0) ->
  normal v =
    Ok (call2 scale (snd v, - fst v) (1 / length (snd v, - fst v))).
Proof.
  intro N. unfold normal. apply unit_returns.
  intro H. apply N. apply perpendicular_zero_iff. exact H.
Qed.

(** Exact arithmetic: for a non-zero [v], [normal(v)] is [unit((v.y, -v.x))], a vector of
    length [1] whose dot product with [v] is [0] (both exactly so in real
    arithmetic). *)
Theorem normal_is_a_perpendicular_unit_vector :
  forall v : Vec2,
    v <> (0, 0) ->
    normal v = unit (snd v, - fst v) /\
    exists n : Vec2,
      normal v = Ok n /\ call2 dot v n = 0 /\ length n = 1.
Proof.
  intros v N. split; [reflexivity |].
  eexists. split; [apply normal_returns; exact N |]. split.
  - apply dot_perpendicular.
  - apply length_normalised.
    intro H. apply N. apply perpendicular_zero_iff. exact H.
Qed.

Lemma normal_is_a_perpendicular_unit_vector_witness :
  (3, 4) <> (0, 0) /\
  normal (3, 4) = unit (snd (3, 4), - fst (3, 4)) /\
  exists n : Vec2,
    normal (3, 4) = Ok n /\ call2 dot (3, 4) n = 0 /\ length n = 1.
Proof.
  assert (N : (3, 4) <> ((0, 0) : Vec2)).
  { intro H. injection H as H0 H1. lra. }
  split; [exact N |].
  apply (normal_is_a_perpendicular_unit_vector (3, 4) N).
Defined.

Example test_normal_3_4 : normal (3, 4) = Ok (0.8, -0.6).
Proof.
  rewrite normal_returns by (intro H; injection H as H0 H1; lra).
  cbn [fst snd].
  assert (L : length (4, - (3)) = 5)
    by (apply length_of_square; [lra | cbn; lra]).
  rewrite L. cbn. do 2 f_equal; lra.
Qed.

(** ** Projection *)

Lemma project_returns (a b : Vec2) :
  b <> (0, 0) ->
  call2 project a b =
    Ok (call2 scale b (call2 dot a b / call2 dot b b)).
Proof.
  intro N. cbn. rewrite (notDeepEqual_passes _ _ N). reflexivity.
Qed.

Lemma project_coefficient_fixed (a b : Vec2) :
  b <> (0, 0) ->
  call2 dot (call2 scale b (call2 dot a b / call2 dot b b)) b
    / call2 dot b b
  = call2 dot a b / call2 dot b b.
Proof.
  intro N. pose proof (dot_self_pos b N) as P.
  rewrite dot_scale_l. field. lra.
Qed.

(** Exact arithmetic: for every [a] and every non-zero [b], [project(a, b)] is
    [scale(b, dot(a,b)/dot(b,b))], and projecting the projection onto [b]
    again returns the same vector. *)
Theorem project_is_the_idempotent_projection :
  forall a b : Vec2,
    b <> (0, 0) ->
    call2 project a b =
      Ok (call2 scale b (call2 dot a b / call2 dot b b)) /\
    exists p : Vec2,
      call2 project a b = Ok p /\ call2 project p b = Ok p.
Proof.
  intros a b N. split; [apply project_returns; exact N |].
  eexists. split; [apply project_returns; exact N |].
  rewrite project_returns by exact N.
  rewrite project_coefficient_fixed by exact N. reflexivity.
Qed.

Lemma project_is_the_idempotent_projection_witness :
  (1, 1) <> (0, 0) /\
  call2 project (1, 0) (1, 1) =
    Ok (call2 scale (1, 1)
          (call2 dot (1, 0) (1, 1) / call2 dot (1, 1) (1, 1))) /\
  exists p : Vec2,
    call2 project (1, 0) (1, 1) = Ok p /\ call2 project p (1, 1) = Ok p.
Proof.
  assert (N : (1, 1) <> ((0, 0) : Vec2)).
  { intro H. injection H as H0 H1. lra. }
  split; [exact N |].
  apply (project_is_the_idempotent_projection (1, 0) (1, 1) N).
Defined.

Example test_project_1_0_onto_1_1 :
  call2 project (1, 0) (1, 1) = Ok (0.5, 0.5).
Proof.
  rewrite project_returns by (intro H; injection H as H0 H1; lra).
  cbn. do 2 f_equal; lra.
Qed.

Example test_project_curried :
  call1 project (1, 1) (1, 0) = Ok (0.5, 0.5).
Proof. rewrite call1_call2. apply test_project_1_0_onto_1_1. Qed.

Example test_project_onto_zero :
  call2 project (1, 0) (0, 0) = Throw AssertionError.
Proof. apply project_throws_iff. reflexivity. Qed.

(** * Further properties of the module over the reals *)

Ltac simpl_ops :=
  cbv beta iota zeta delta
    [call2 call1 func curry zero negate add sub scale dot rotate fst snd].

Ltac vec_eq :=
  repeat match goal with v : Vec2 |- _ => destruct v end;
  simpl_ops; f_equal; try ring.

Lemma vec2_neq (x y : Scalar) : x <> 0 \/ y <> 0 -> (x, y) <> (0, 0).
Proof. intros [N | N] H; injection H as H0 H1; contradiction. Qed.

Lemma le_of_squares (x y : R) : 0 <= x -> 0 <= y -> x * x <= y * y -> x <= y.
Proof. intros. nra. Qed.

Lemma length_le_of_dot (a b : Vec2) :
  call2 dot a a <= call2 dot b b -> length a <= length b.
Proof. intro H. unfold length, Math.sqrt. apply sqrt_le_1_alt. exact H. Qed.

Lemma length_eq_of_dot (a b : Vec2) :
  call2 dot a a = call2 dot b b -> length a = length b.
Proof. intro H. unfold length. rewrite H. reflexivity. Qed.

Lemma dot_le_lengths (a b : Vec2) : call2 dot a b <= length a * length b.
Proof.
  pose proof (cauchy_schwarz a b) as CS.
  rewrite <- (length_sqr a), <- (length_sqr b) in CS.
  assert (P : 0 <= length a * length b)
    by (apply Rmult_le_pos; apply length_nonneg).
  set (d := call2 dot a b) in *. set (m := length a * length b) in *.
  replace (length a * length a * (length b * length b)) with (m * m) in CS
    by (unfold m; ring).
  apply Rnot_lt_le. intro L. nra.
Qed.

(** ** Algebra *)


(** Exact arithmetic: subtraction undoes addition and conversely, and subtracting is
    adding the negation. *)
Theorem add_and_sub_are_inverse :
  forall a b : Vec2,
    call2 add (call2 sub a b) b = a /\
    call2 sub (call2 add a b) b = a /\
    call2 sub a b = call2 add a (negate b) /\
    call2 sub a b = negate (call2 sub b a).
Proof.
  intros a b. repeat split; vec_eq.
Qed.

(** Exact arithmetic: the dot product is symmetric and linear in each argument. *)
Theorem dot_is_symmetric_and_bilinear :
  forall (a b c : Vec2) (k : Scalar),
    call2 dot a b = call2 dot b a /\
    call2 dot (call2 scale a k) b = k * call2 dot a b /\
    call2 dot a (call2 scale b k) = k * call2 dot a b /\
    call2 dot (call2 add a b) c = call2 dot a c + call2 dot b c /\
    call2 dot (call2 sub a b) c = call2 dot a c - call2 dot b c.
Proof.
  intros [ax ay] [bx by'] [cx cy] k. repeat split; simpl_ops; ring.
Qed.

(** X4: for the symmetric operations [add], [dot], [distance] and [angle]
    the two call shapes agree with the arguments in the written order:
    [op(a)(b) = op(a, b)], failures of [angle] included. *)
Theorem symmetric_operations_hide_the_binding_order :
  forall a b : Vec2,
    call1 add a b = call2 add a b /\
    call1 dot a b = call2 dot a b /\
    call1 distance a b = call2 distance a b /\
    call1 angle a b = call2 angle a b.
Proof.
  intros a b. repeat split.
  - vec_eq.
  - destruct a, b. simpl_ops. ring.
  - rewrite call1_call2. cbn [call2 func curry distance].
    apply length_eq_of_dot. destruct a, b. simpl_ops. ring.
  - rewrite call1_call2. cbn [call2 func curry angle].
    destruct (notDeepEqual_cases a (0, 0)) as [[Ea ->] | [Na ->]];
      destruct (notDeepEqual_cases b (0, 0)) as [[Eb ->] | [Nb ->]];
      cbn [bind]; try reflexivity.
    f_equal. f_equal. f_equal.
    + destruct a, b. simpl_ops. ring.
    + ring.
Qed.

(** ** Lengths and distances *)

Lemma dot_add_self (a b : Vec2) :
  call2 dot (call2 add a b) (call2 add a b)
  = call2 dot a a + 2 * call2 dot a b + call2 dot b b.
Proof. destruct a, b. simpl_ops. ring. Qed.

Lemma length_add_le (a b : Vec2) :
  length (call2 add a b) <= length a + length b.
Proof.
  pose proof (length_nonneg a) as Pa. pose proof (length_nonneg b) as Pb.
  apply le_of_squares; [apply length_nonneg | lra |].
  rewrite length_sqr, dot_add_self.
  pose proof (dot_le_lengths a b) as D.
  pose proof (length_sqr a) as Sa. pose proof (length_sqr b) as Sb.
  nra.
Qed.

Lemma length_scale_abs (v : Vec2) (k : Scalar) :
  length (call2 scale v k) = Rabs k * length v.
Proof.
  apply length_of_square.
  - apply Rmult_le_pos; [apply Rabs_pos | apply length_nonneg].
  - rewrite dot_scale_l, dot_scale_r.
    replace (Rabs k * length v * (Rabs k * length v))
      with ((Rabs k * Rabs k) * (length v * length v)) by ring.
    rewrite length_sqr. fold (Rsqr (Rabs k)). rewrite <- Rsqr_abs.
    unfold Rsqr. ring.
Qed.

(** Exact arithmetic: scaling a vector by [k] scales its length by [|k|], and scaling two
    vectors by [k] scales their distance by [|k|]. *)
Theorem length_of_scaled_vector :
  forall (a b : Vec2) (k : Scalar),
    length (call2 scale a k) = Rabs k * length a /\
    call2 distance (call2 scale a k) (call2 scale b k)
    = Rabs k * call2 distance a b.
Proof.
  intros a b k. split; [apply length_scale_abs |].
  change (length (call2 sub (call2 scale a k) (call2 scale b k))
          = Rabs k * length (call2 sub a b)).
  replace (call2 sub (call2 scale a k) (call2 scale b k))
    with (call2 scale (call2 sub a b) k) by vec_eq.
  apply length_scale_abs.
Qed.

(** Exact arithmetic: the triangle inequality, [length(add(a, b)) <= length(a) + length(b)],
    and the Cauchy-Schwarz bound [|dot(a, b)| <= length(a) * length(b)]. *)
Theorem length_triangle_inequality :
  forall a b : Vec2,
    length (call2 add a b) <= length a + length b /\
    Rabs (call2 dot a b) <= length a * length b.
Proof.
  intros a b. split; [apply length_add_le |].
  apply Rabs_le. split.
  - pose proof (dot_le_lengths (negate a) b) as D.
    replace (call2 dot (negate a) b) with (- call2 dot a b) in D
      by (destruct a, b; simpl_ops; ring).
    replace (length (negate a)) with (length a) in D
      by (apply length_eq_of_dot; destruct a; simpl_ops; ring).
    lra.
  - apply dot_le_lengths.
Qed.

(** Exact arithmetic: Pythagoras and its converse: the squared length of [add(a, b)] is
    the sum of the squared lengths of [a] and [b] exactly when
    [dot(a, b) = 0]. *)
Theorem pythagoras_iff_perpendicular :
  forall a b : Vec2,
    length (call2 add a b) * length (call2 add a b)
    = length a * length a + length b * length b
    <-> call2 dot a b = 0.
Proof.
  intros a b. rewrite !length_sqr, dot_add_self. split; intro H; lra.
Qed.

Lemma sub_zero_iff (a b : Vec2) : call2 sub a b = (0, 0) <-> a = b.
Proof.
  destruct a as [ax ay], b as [bx by']. simpl_ops. split; intro H.
  - injection H as H0 H1. f_equal; lra.
  - injection H as -> ->. f_equal; ring.
Qed.

Lemma distance_components (a b : Vec2) :
  call2 distance a b = length (call2 sub a b).
Proof. reflexivity. Qed.

Lemma sub_chain (a b c : Vec2) :
  call2 sub a c = call2 add (call2 sub a b) (call2 sub b c).
Proof. vec_eq. Qed.

(** Exact arithmetic: [distance] is a metric: it is symmetric, never negative, zero
    exactly between equal vectors, and satisfies the triangle inequality. *)
Theorem distance_is_a_metric :
  forall a b c : Vec2,
    call2 distance a b = call2 distance b a /\
    0 <= call2 distance a b /\
    (call2 distance a b = 0 <-> a = b) /\
    call2 distance a c <= call2 distance a b + call2 distance b c.
Proof.
  intros a b c. rewrite !distance_components.
  repeat split.
  - apply length_eq_of_dot. destruct a, b. simpl_ops. ring.
  - apply length_nonneg.
  - intro H. apply sub_zero_iff. apply length_zero_iff. exact H.
  - intro H. apply length_zero_iff. apply sub_zero_iff. exact H.
  - rewrite (sub_chain a b c). apply length_add_le.
Qed.

(** Exact arithmetic: distances do not change when both vectors are translated by the
    same vector or rotated by the same angle. *)
Theorem distance_is_invariant_under_motions :
  forall (a b c : Vec2) (theta : Scalar),
    call2 distance (call2 add a c) (call2 add b c) = call2 distance a b /\
    call2 distance (call2 rotate a theta) (call2 rotate b theta)
    = call2 distance a b.
Proof.
  intros a b c theta. rewrite !distance_components.
  split.
  - f_equal. vec_eq.
  - replace (call2 sub (call2 rotate a theta) (call2 rotate b theta))
      with (call2 rotate (call2 sub a b) theta) by vec_eq.
    unfold length. rewrite dot_rotate_self. reflexivity.
Qed.

(** ** Rotations *)

Lemma rotate_linear_sub (a b : Vec2) (theta : Scalar) :
  call2 rotate (call2 sub a b) theta
  = call2 sub (call2 rotate a theta) (call2 rotate b theta).
Proof. vec_eq. Qed.

Lemma dot_rotate (a b : Vec2) (theta : Scalar) :
  call2 dot (call2 rotate a theta) (call2 rotate b theta) = call2 dot a b.
Proof.
  destruct a as [ax ay], b as [bx by']. simpl_ops.
  unfold Math.cos, Math.sin.
  pose proof (sin2_cos2 theta) as H. unfold Rsqr in H.
  replace ((ax * cos theta - ay * sin theta) * (bx * cos theta - by' * sin theta)
           + (ax * sin theta + ay * cos theta)
             * (bx * sin theta + by' * cos theta))
    with ((ax * bx + ay * by')
          * (sin theta * sin theta + cos theta * cos theta)) by ring.
  rewrite H. ring.
Qed.

Lemma length_rotate (v : Vec2) (theta : Scalar) :
  length (call2 rotate v theta) = length v.
Proof. apply length_eq_of_dot. apply dot_rotate. Qed.

Lemma rotate_zero_iff (v : Vec2) (theta : Scalar) :
  call2 rotate v theta = (0, 0) <-> v = (0, 0).
Proof.
  rewrite <- !length_zero_iff, length_rotate. reflexivity.
Qed.

(** Exact arithmetic: rotations compose by adding their angles; rotating by [0] changes
    nothing, rotating by [-theta] undoes rotating by [theta], and a full
    turn changes nothing. *)
Theorem rotations_compose_additively :
  forall (v : Vec2) (theta1 theta2 : Scalar),
    call2 rotate (call2 rotate v theta1) theta2
    = call2 rotate v (theta1 + theta2) /\
    call2 rotate v 0 = v /\
    call2 rotate (call2 rotate v theta1) (- theta1) = v /\
    call2 rotate v (theta1 + 2 * PI) = call2 rotate v theta1.
Proof.
  intros [x y] theta1 theta2.
  assert (C : forall t1 t2,
             call2 rotate (call2 rotate (x, y) t1) t2
             = call2 rotate (x, y) (t1 + t2)).
  { intros t1 t2. simpl_ops. unfold Math.cos, Math.sin.
    rewrite cos_plus, sin_plus. f_equal; ring. }
  assert (Z : call2 rotate (x, y) 0 = (x, y)).
  { simpl_ops. unfold Math.cos, Math.sin. rewrite cos_0, sin_0.
    f_equal; ring. }
  repeat split.
  - apply C.
  - exact Z.
  - rewrite C. replace (theta1 + - theta1) with 0 by ring. exact Z.
  - simpl_ops. unfold Math.cos, Math.sin.
    rewrite cos_plus, sin_plus, cos_2PI, sin_2PI. f_equal; ring.
Qed.

(** Exact arithmetic: rotation is linear and keeps dot products: it commutes with [add]
    and [scale], and [dot(rotate(a, t), rotate(b, t)) = dot(a, b)]. *)
Theorem rotate_is_linear_and_orthogonal :
  forall (a b : Vec2) (k theta : Scalar),
    call2 rotate (call2 add a b) theta
    = call2 add (call2 rotate a theta) (call2 rotate b theta) /\
    call2 rotate (call2 scale a k) theta
    = call2 scale (call2 rotate a theta) k /\
    call2 dot (call2 rotate a theta) (call2 rotate b theta) = call2 dot a b.
Proof.
  intros a b k theta. split; [| split].
  - vec_eq.
  - vec_eq.
  - apply dot_rotate.
Qed.

(** Exact arithmetic: a half turn is [negate]; a quarter turn sends [(x, y)] to
    [(-y, x)], which is perpendicular to [(x, y)]. *)
Theorem half_and_quarter_turns :
  forall v : Vec2,
    call2 rotate v PI = negate v /\
    call2 rotate v (PI / 2) = (- snd v, fst v) /\
    call2 dot v (call2 rotate v (PI / 2)) = 0.
Proof.
  intros [x y].
  assert (Q : call2 rotate (x, y) (PI / 2) = (- y, x)).
  { simpl_ops. unfold Math.cos, Math.sin. rewrite cos_PI2, sin_PI2.
    f_equal; ring. }
  repeat split.
  - simpl_ops. unfold Math.cos, Math.sin. rewrite cos_PI, sin_PI.
    f_equal; ring.
  - exact Q.
  - rewrite Q. simpl_ops. ring.
Qed.

(** ** Polar coordinates *)

Lemma fromPolar_components (theta r : Scalar) :
  fromPolar (theta, r) = (r * Math.cos theta, r * Math.sin theta).
Proof. unfold fromPolar. simpl_ops. f_equal; ring. Qed.

Lemma fromPolar_as_scale (theta r : Scalar) :
  fromPolar (theta, r) = call2 scale (call2 rotate (1, 0) theta) r.
Proof. unfold fromPolar. simpl_ops. f_equal; ring. Qed.

(** Exact arithmetic: [fromPolar([theta, r])] is [(r cos theta, r sin theta)]; its length
    is [|r|], and a zero length gives the zero vector whatever the angle. *)
Theorem fromPolar_is_the_polar_point :
  forall theta r : Scalar,
    fromPolar (theta, r) = (r * Math.cos theta, r * Math.sin theta) /\
    length (fromPolar (theta, r)) = Rabs r /\
    fromPolar (theta, 0) = zero.
Proof.
  intros theta r. split; [apply fromPolar_components |]. split.
  - unfold fromPolar. rewrite length_rotate.
    apply length_of_square; [apply Rabs_pos |].
    simpl_ops. fold (Rsqr (Rabs r)). rewrite <- Rsqr_abs. unfold Rsqr. ring.
  - rewrite fromPolar_components. unfold zero. f_equal; ring.
Qed.

(** ** Angles between vectors *)

Lemma angle_congr (a b a' b' : Vec2) :
  (a = (0, 0) <-> a' = (0, 0)) ->
  (b = (0, 0) <-> b' = (0, 0)) ->
  (a <> (0, 0) -> b <> (0, 0) ->
   call2 dot a b / (length a * length b)
   = call2 dot a' b' / (length a' * length b')) ->
  call2 angle a b = call2 angle a' b'.
Proof.
  intros Za Zb E.
  change (call2 angle a b)
    with (Assert.notDeepEqual a (0, 0) ;; Assert.notDeepEqual b (0, 0) ;;
          Ok (Math.acos (call2 dot a b / (length a * length b)))).
  change (call2 angle a' b')
    with (Assert.notDeepEqual a' (0, 0) ;; Assert.notDeepEqual b' (0, 0) ;;
          Ok (Math.acos (call2 dot a' b' / (length a' * length b')))).
  destruct (notDeepEqual_cases a (0, 0)) as [[Ea ->] | [Na ->]];
    destruct (notDeepEqual_cases a' (0, 0)) as [[Ea' ->] | [Na' ->]];
    try tauto; try reflexivity.
  destruct (notDeepEqual_cases b (0, 0)) as [[Eb ->] | [Nb ->]];
    destruct (notDeepEqual_cases b' (0, 0)) as [[Eb' ->] | [Nb' ->]];
    try tauto; try reflexivity.
  cbn [bind]. rewrite (E Na Nb). reflexivity.
Qed.

Lemma scale_zero_iff (v : Vec2) (k : Scalar) :
  k <> 0 -> (call2 scale v k = (0, 0) <-> v = (0, 0)).
Proof.
  intro N. destruct v as [x y]. simpl_ops. split; intro H.
  - injection H as H0 H1. f_equal.
    + destruct (Rmult_integral _ _ H0); [assumption | contradiction].
    + destruct (Rmult_integral _ _ H1); [assumption | contradiction].
  - injection H as -> ->. f_equal; ring.
Qed.

Lemma angle_rotate_both (a b : Vec2) (theta : Scalar) :
  call2 angle (call2 rotate a theta) (call2 rotate b theta)
  = call2 angle a b.
Proof.
  apply angle_congr; try apply rotate_zero_iff.
  intros _ _. rewrite dot_rotate, !length_rotate. reflexivity.
Qed.

Lemma angle_scale_l (a b : Vec2) (k : Scalar) :
  0 < k -> call2 angle (call2 scale a k) b = call2 angle a b.
Proof.
  intro P. assert (Nk : k <> 0) by lra.
  apply angle_congr; [apply scale_zero_iff; exact Nk | reflexivity |].
  intros Na Nb. rewrite (scale_zero_iff a k Nk) in Na.
  pose proof (length_pos a Na). pose proof (length_pos b Nb).
  rewrite dot_scale_l, length_scale by lra. field. lra.
Qed.

Lemma angle_scale_r (a b : Vec2) (k : Scalar) :
  0 < k -> call2 angle a (call2 scale b k) = call2 angle a b.
Proof.
  intro P. assert (Nk : k <> 0) by lra.
  apply angle_congr; [reflexivity | apply scale_zero_iff; exact Nk |].
  intros Na Nb. rewrite (scale_zero_iff b k Nk) in Nb.
  pose proof (length_pos a Na). pose proof (length_pos b Nb).
  rewrite dot_scale_r, length_scale by lra. field. lra.
Qed.

(** Exact arithmetic: the angle between two vectors does not change when both are
    rotated by the same angle, nor when one of them is scaled by a positive
    factor; a failing call keeps failing. *)
Theorem angle_is_invariant_under_rotation_and_scaling :
  forall (a b : Vec2) (theta k : Scalar),
    0 < k ->
    call2 angle (call2 rotate a theta) (call2 rotate b theta)
    = call2 angle a b /\
    call2 angle (call2 scale a k) b = call2 angle a b /\
    call2 angle a (call2 scale b k) = call2 angle a b.
Proof.
  intros a b theta k P. split; [| split].
  - apply angle_rotate_both.
  - apply angle_scale_l. exact P.
  - apply angle_scale_r. exact P.
Qed.

Lemma angle_is_invariant_under_rotation_and_scaling_witness :
  0 < 2 /\
  call2 angle (call2 rotate (1, 0) PI) (call2 rotate (1, 1) PI)
  = call2 angle (1, 0) (1, 1) /\
  call2 angle (call2 scale (1, 0) 2) (1, 1) = call2 angle (1, 0) (1, 1) /\
  call2 angle (1, 0) (call2 scale (1, 1) 2) = call2 angle (1, 0) (1, 1).
Proof.
  assert (P : 0 < 2) by lra.
  split; [exact P |].
  apply (angle_is_invariant_under_rotation_and_scaling (1, 0) (1, 1) PI 2 P).
Defined.

Lemma angle_of_ratio (a b : Vec2) (q : Scalar) :
  a <> (0, 0) -> b <> (0, 0) ->
  call2 dot a b = q * (length a * length b) ->
  call2 angle a b = Ok (Math.acos q).
Proof.
  intros Na Nb E. rewrite angle_returns by assumption.
  pose proof (length_pos a Na). pose proof (length_pos b Nb).
  do 2 f_equal. rewrite E. field. lra.
Qed.

(** Exact arithmetic: the dot product of two non-zero vectors is the product of their
    lengths and the cosine of the angle that [angle] returns. *)
Theorem dot_is_lengths_times_cosine_of_angle :
  forall a b : Vec2,
    a <> (0, 0) -> b <> (0, 0) ->
    exists theta : Scalar,
      call2 angle a b = Ok theta /\
      call2 dot a b = length a * length b * Math.cos theta.
Proof.
  intros a b Na Nb.
  destruct (angle_cosine a b Na Nb) as [theta [E C]].
  exists theta. split; [exact E |]. rewrite C.
  pose proof (length_pos a Na). pose proof (length_pos b Nb).
  field. lra.
Qed.

Lemma dot_is_lengths_times_cosine_of_angle_witness :
  (1, 2) <> (0, 0) /\ (3, 4) <> (0, 0) /\
  exists theta : Scalar,
    call2 angle (1, 2) (3, 4) = Ok theta /\
    call2 dot (1, 2) (3, 4)
    = length (1, 2) * length (3, 4) * Math.cos theta.
Proof.
  assert (Na : (1, 2) <> ((0, 0) : Vec2)) by (apply vec2_neq; left; lra).
  assert (Nb : (3, 4) <> ((0, 0) : Vec2)) by (apply vec2_neq; left; lra).
  split; [exact Na |]. split; [exact Nb |].
  apply (dot_is_lengths_times_cosine_of_angle (1, 2) (3, 4) Na Nb).
Defined.

(** Exact arithmetic: landmarks of [angle] for a non-zero [a]: the angle to a positive
    multiple of [a] is [0], to a negative multiple it is [PI], and to a
    non-zero vector whose dot product with [a] is [0] it is [PI / 2]. *)
Theorem angle_landmarks :
  forall (a b : Vec2) (k : Scalar),
    a <> (0, 0) ->
    (0 < k -> call2 angle a (call2 scale a k) = Ok 0) /\
    (k < 0 -> call2 angle a (call2 scale a k) = Ok PI) /\
    (b <> (0, 0) -> call2 dot a b = 0 -> call2 angle a b = Ok (PI / 2)).
Proof.
  intros a b k Na. split; [| split].
  - intro P. rewrite <- acos_1. apply angle_of_ratio.
    + exact Na.
    + intro Z. apply Na. apply (scale_zero_iff a k); [lra | exact Z].
    + rewrite dot_scale_r, length_scale, <- length_sqr by lra. ring.
  - intro P. replace PI with (Ratan.acos (- (1)))
      by (rewrite acos_opp, acos_1; ring).
    apply angle_of_ratio.
    + exact Na.
    + intro Z. apply Na. apply (scale_zero_iff a k); [lra | exact Z].
    + assert (L : length (call2 scale a k) = - k * length a).
      { replace (call2 scale a k) with (negate (call2 scale a (- k)))
          by vec_eq.
        replace (length (negate (call2 scale a (- k))))
          with (length (call2 scale a (- k)))
          by (apply length_eq_of_dot;
              destruct a; simpl_ops; ring).
        apply length_scale. lra. }
      rewrite dot_scale_r, L, <- length_sqr. ring.
  - intros Nb D. rewrite <- acos_0. apply angle_of_ratio; try assumption.
    rewrite D. ring.
Qed.

Lemma angle_landmarks_witness :
  (3, 4) <> (0, 0) /\
  (0 < 2 -> call2 angle (3, 4) (call2 scale (3, 4) 2) = Ok 0) /\
  (2 < 0 -> call2 angle (3, 4) (call2 scale (3, 4) 2) = Ok PI) /\
  ((4, - (3)) <> (0, 0) -> call2 dot (3, 4) (4, - (3)) = 0 ->
   call2 angle (3, 4) (4, - (3)) = Ok (PI / 2)).
Proof.
  assert (Na : (3, 4) <> ((0, 0) : Vec2)) by (apply vec2_neq; left; lra).
  split; [exact Na |].
  apply (angle_landmarks (3, 4) (4, - (3)) 2 Na).
Defined.

Lemma angle_to_rotated (a : Vec2) (theta : Scalar) :
  a <> (0, 0) -> 0 <= theta <= PI ->
  call2 angle a (call2 rotate a theta) = Ok theta.
Proof.
  intros Na B.
  assert (Nr : call2 rotate a theta <> (0, 0))
    by (intro Z; apply Na; apply (rotate_zero_iff a theta); exact Z).
  rewrite <- (acos_cos theta B) at 2. apply angle_of_ratio; try assumption.
  rewrite length_rotate, length_sqr. destruct a as [x y]. simpl_ops.
  unfold Math.cos, Math.sin. ring.
Qed.

(** Exact arithmetic: for a non-zero [a] and an angle [theta] in [[0, PI]], the angle
    between [a] and [rotate(a, theta)] is [theta], in either argument
    order. *)
Theorem angle_recovers_the_rotation_angle :
  forall (a : Vec2) (theta : Scalar),
    a <> (0, 0) -> 0 <= theta <= PI ->
    call2 angle a (call2 rotate a theta) = Ok theta /\
    call2 angle (call2 rotate a theta) a = Ok theta.
Proof.
  intros a theta Na B.
  pose proof (angle_to_rotated a theta Na B) as E. split; [exact E |].
  rewrite <- E.
  apply angle_congr;
    [apply rotate_zero_iff | symmetry; apply rotate_zero_iff |].
  intros _ _. f_equal.
  - destruct a. simpl_ops. ring.
  - ring.
Qed.

Lemma angle_recovers_the_rotation_angle_witness :
  (1, 0) <> (0, 0) /\ 0 <= PI / 2 <= PI /\
  call2 angle (1, 0) (call2 rotate (1, 0) (PI / 2)) = Ok (PI / 2) /\
  call2 angle (call2 rotate (1, 0) (PI / 2)) (1, 0) = Ok (PI / 2).
Proof.
  assert (Na : (1, 0) <> ((0, 0) : Vec2)) by (apply vec2_neq; left; lra).
  assert (B : 0 <= PI / 2 <= PI) by (pose proof PI_RGT_0; lra).
  split; [exact Na |]. split; [exact B |].
  apply (angle_recovers_the_rotation_angle (1, 0) (PI / 2) Na B).
Defined.

(** Exact arithmetic: converting polar coordinates [[theta, r]] with [r > 0] and [theta]
    in [[0, PI]] to cartesian and back through the parts of [toPolar]: the
    second element is [r], and the function held in the first element,
    called with the x-axis [[1, 0]], returns [theta]. *)
Theorem toPolar_of_fromPolar :
  forall theta r : Scalar,
    0 < r -> 0 <= theta <= PI ->
    exists k : Vec2 -> Except Scalar,
      toPolar (fromPolar (theta, r)) = [Fn k; Num r] /\
      k (1, 0) = Ok theta.
Proof.
  intros theta r P B.
  assert (Nx : (1, 0) <> ((0, 0) : Vec2)) by (apply vec2_neq; left; lra).
  exists (call1 angle (fromPolar (theta, r))). split.
  - unfold toPolar. do 3 f_equal.
    unfold fromPolar. rewrite length_rotate.
    apply length_of_square; [lra | simpl_ops; ring].
  - rewrite call1_call2, fromPolar_as_scale.
    rewrite angle_scale_r by exact P.
    apply angle_to_rotated; assumption.
Qed.

Lemma toPolar_of_fromPolar_witness :
  0 < 2 /\ 0 <= PI / 2 <= PI /\
  exists k : Vec2 -> Except Scalar,
    toPolar (fromPolar (PI / 2, 2)) = [Fn k; Num 2] /\
    k (1, 0) = Ok (PI / 2).
Proof.
  assert (P : 0 < 2) by lra.
  assert (B : 0 <= PI / 2 <= PI) by (pose proof PI_RGT_0; lra).
  split; [exact P |]. split; [exact B |].
  apply (toPolar_of_fromPolar (PI / 2) 2 P B).
Defined.

(** ** Unit vectors and normals, continued *)

Lemma unit_of_unit_length (u : Vec2) : length u = 1 -> unit u = Ok u.
Proof.
  intro L.
  assert (N : u <> (0, 0)).
  { intro Z. apply length_zero_iff in Z. lra. }
  rewrite unit_returns by exact N. rewrite L. f_equal. vec_eq; field.
Qed.

Lemma unit_scale_pos (v : Vec2) (k : Scalar) :
  v <> (0, 0) -> 0 < k -> unit (call2 scale v k) = unit v.
Proof.
  intros N P. pose proof (length_pos v N) as L.
  assert (Nk : call2 scale v k <> (0, 0)).
  { intro Z. apply N. apply (scale_zero_iff v k); [lra | exact Z]. }
  rewrite !unit_returns by assumption. rewrite length_scale by lra.
  f_equal. destruct v as [x y]. simpl_ops. f_equal; field; lra.
Qed.

(** Exact arithmetic: for a non-zero [v], [unit(v)] keeps the direction of [v]: scaling it
    by [length(v)] gives [v] back; [unit] is idempotent, and it ignores a
    positive scaling of its argument. *)
Theorem unit_keeps_the_direction :
  forall (v : Vec2) (k : Scalar),
    v <> (0, 0) -> 0 < k ->
    exists u : Vec2,
      unit v = Ok u /\
      call2 scale u (length v) = v /\
      unit u = Ok u /\
      unit (call2 scale v k) = Ok u.
Proof.
  intros v k N P. pose proof (length_pos v N) as L.
  exists (call2 scale v (1 / length v)).
  split; [apply unit_returns; exact N |]. split; [| split].
  - destruct v as [x y]. simpl_ops. f_equal; field; lra.
  - apply unit_of_unit_length. apply length_normalised. exact N.
  - rewrite unit_scale_pos by assumption. apply unit_returns. exact N.
Qed.

Lemma unit_keeps_the_direction_witness :
  (3, 4) <> (0, 0) /\ 0 < 2 /\
  exists u : Vec2,
    unit (3, 4) = Ok u /\
    call2 scale u (length (3, 4)) = (3, 4) /\
    unit u = Ok u /\
    unit (call2 scale (3, 4) 2) = Ok u.
Proof.
  assert (N : (3, 4) <> ((0, 0) : Vec2)) by (apply vec2_neq; left; lra).
  assert (P : 0 < 2) by lra.
  split; [exact N |]. split; [exact P |].
  apply (unit_keeps_the_direction (3, 4) 2 N P).
Defined.

Lemma length_perpendicular (v : Vec2) : length (snd v, - fst v) = length v.
Proof. apply length_eq_of_dot. destruct v. simpl_ops. ring. Qed.

(** Exact arithmetic: for a non-zero [v], [normal(v)] is [unit(v)] turned clockwise by a
    quarter turn, and taking the normal twice gives the negated unit
    vector. *)
Theorem normal_is_a_clockwise_quarter_turn :
  forall v : Vec2,
    v <> (0, 0) ->
    exists n u : Vec2,
      normal v = Ok n /\
      unit v = Ok u /\
      n = call2 rotate u (- (PI / 2)) /\
      normal n = Ok (negate u).
Proof.
  intros v N. pose proof (length_pos v N) as L.
  exists (call2 scale (snd v, - fst v) (1 / length (snd v, - fst v))).
  exists (call2 scale v (1 / length v)).
  split; [apply normal_returns; exact N |].
  split; [apply unit_returns; exact N |].
  rewrite length_perpendicular. split.
  - destruct v as [x y]. simpl_ops. unfold Math.cos, Math.sin.
    rewrite cos_neg, sin_neg, cos_PI2, sin_PI2. f_equal; ring.
  - unfold normal.
    replace (snd (call2 scale (snd v, - fst v) (1 / length v)),
             - fst (call2 scale (snd v, - fst v) (1 / length v)))
      with (negate (call2 scale v (1 / length v)))
      by (destruct v; simpl_ops; f_equal; ring).
    apply unit_of_unit_length.
    replace (negate (call2 scale v (1 / length v)))
      with (call2 scale (negate v) (1 / length v)) by vec_eq.
    rewrite length_scale by (apply Rlt_le; apply Rdiv_lt_0_compat; lra).
    replace (length (negate v)) with (length v)
      by (apply length_eq_of_dot; destruct v; simpl_ops; ring).
    field. lra.
Qed.

Lemma normal_is_a_clockwise_quarter_turn_witness :
  (3, 4) <> (0, 0) /\
  exists n u : Vec2,
    normal (3, 4) = Ok n /\
    unit (3, 4) = Ok u /\
    n = call2 rotate u (- (PI / 2)) /\
    normal n = Ok (negate u).
Proof.
  assert (N : (3, 4) <> ((0, 0) : Vec2)) by (apply vec2_neq; left; lra).
  split; [exact N |].
  apply (normal_is_a_clockwise_quarter_turn (3, 4) N).
Defined.

(** ** Projection, continued *)

Lemma project_zero_iff (a b : Vec2) :
  b <> (0, 0) ->
  (call2 project a b = Ok zero <-> call2 dot a b = 0).
Proof.
  intro N. pose proof (dot_self_pos b N) as P.
  rewrite project_returns by exact N. split; intro H.
  - injection H as H0 H1.
    assert (Q : call2 dot a b / call2 dot b b = 0).
    { destruct (Req_dec_T (call2 dot a b / call2 dot b b) 0) as [Z | NZ];
        [exact Z |].
      exfalso. apply N. destruct b as [x y]. cbn [fst snd] in H0, H1.
      f_equal.
      - destruct (Rmult_integral _ _ H0); [assumption | contradiction].
      - destruct (Rmult_integral _ _ H1); [assumption | contradiction]. }
    replace (call2 dot a b)
      with (call2 dot a b / call2 dot b b * call2 dot b b) by (field; lra).
    rewrite Q. ring.
  - rewrite H. unfold zero. f_equal. destruct b. simpl_ops.
    f_equal; unfold Rdiv; ring.
Qed.

(** Exact arithmetic: for a non-zero [b], [project(a, b)] splits [a] orthogonally: the
    remainder [sub(a, p)] has dot product [0] with [b], the squared lengths
    of the projection and the remainder add up to that of [a], and the
    projection is no longer than [a]. *)
Theorem project_is_an_orthogonal_decomposition :
  forall a b : Vec2,
    b <> (0, 0) ->
    exists p : Vec2,
      call2 project a b = Ok p /\
      call2 dot (call2 sub a p) b = 0 /\
      length a * length a
      = length p * length p
        + length (call2 sub a p) * length (call2 sub a p) /\
      length p <= length a.
Proof.
  intros a b N. pose proof (dot_self_pos b N) as P.
  exists (call2 scale b (call2 dot a b / call2 dot b b)).
  split; [apply project_returns; exact N |].
  set (q := call2 dot a b / call2 dot b b).
  assert (Q : q * call2 dot b b = call2 dot a b) by (unfold q; field; lra).
  clearbody q.
  assert (O : call2 dot (call2 sub a (call2 scale b q)) b = 0).
  { replace (call2 dot (call2 sub a (call2 scale b q)) b)
      with (call2 dot a b - q * call2 dot b b)
      by (destruct a, b; simpl_ops; ring).
    rewrite Q. ring. }
  assert (S : call2 dot a a
              = call2 dot (call2 scale b q) (call2 scale b q)
                + call2 dot (call2 sub a (call2 scale b q))
                    (call2 sub a (call2 scale b q))).
  { assert (E : call2 dot (call2 sub a (call2 scale b q)) (call2 scale b q)
                = 0) by (rewrite dot_scale_r, O; ring).
    revert E. destruct a, b. simpl_ops. intro E. lra. }
  split; [exact O |]. split.
  - rewrite !length_sqr. exact S.
  - apply length_le_of_dot. rewrite S.
    pose proof (dot_self_nonneg (call2 sub a (call2 scale b q))). lra.
Qed.

Lemma project_is_an_orthogonal_decomposition_witness :
  (1, 1) <> (0, 0) /\
  exists p : Vec2,
    call2 project (1, 0) (1, 1) = Ok p /\
    call2 dot (call2 sub (1, 0) p) (1, 1) = 0 /\
    length (1, 0) * length (1, 0)
    = length p * length p
      + length (call2 sub (1, 0) p) * length (call2 sub (1, 0) p) /\
    length p <= length (1, 0).
Proof.
  assert (N : (1, 1) <> ((0, 0) : Vec2)) by (apply vec2_neq; left; lra).
  split; [exact N |].
  apply (project_is_an_orthogonal_decomposition (1, 0) (1, 1) N).
Defined.

(** Exact arithmetic: for a non-zero [b], [project(., b)] is linear in the projected
    vector, and it does not depend on the length or the sign of [b]:
    projecting onto [scale(b, k)] with [k <> 0] gives the same vector. *)
Theorem project_is_linear_and_ignores_the_scale_of_b :
  forall (a c b : Vec2) (k m : Scalar),
    b <> (0, 0) -> k <> 0 ->
    exists p q : Vec2,
      call2 project a b = Ok p /\
      call2 project c b = Ok q /\
      call2 project (call2 add a c) b = Ok (call2 add p q) /\
      call2 project (call2 scale a m) b = Ok (call2 scale p m) /\
      call2 project a (call2 scale b k) = Ok p.
Proof.
  intros a c b k m N Nk. pose proof (dot_self_pos b N) as P.
  assert (Nb : call2 scale b k <> (0, 0)).
  { intro Z. apply N. apply (scale_zero_iff b k); assumption. }
  exists (call2 scale b (call2 dot a b / call2 dot b b)).
  exists (call2 scale b (call2 dot c b / call2 dot b b)).
  rewrite !project_returns by assumption.
  repeat split; f_equal.
  - revert P. destruct a, c, b. simpl_ops. intro P. f_equal; field; lra.
  - revert P. destruct a, b. simpl_ops. intro P. f_equal; field; lra.
  - pose proof (dot_self_pos _ Nb) as PK. revert P PK.
    destruct a, b. simpl_ops. intros P PK. f_equal; field; lra.
Qed.

Lemma project_is_linear_and_ignores_the_scale_of_b_witness :
  (1, 1) <> (0, 0) /\ -2 <> 0 /\
  exists p q : Vec2,
    call2 project (1, 0) (1, 1) = Ok p /\
    call2 project (0, 3) (1, 1) = Ok q /\
    call2 project (call2 add (1, 0) (0, 3)) (1, 1) = Ok (call2 add p q) /\
    call2 project (call2 scale (1, 0) 5) (1, 1) = Ok (call2 scale p 5) /\
    call2 project (1, 0) (call2 scale (1, 1) (-2)) = Ok p.
Proof.
  assert (N : (1, 1) <> ((0, 0) : Vec2)) by (apply vec2_neq; left; lra).
  assert (Nk : -2 <> 0) by lra.
  split; [exact N |]. split; [exact Nk |].
  apply (project_is_linear_and_ignores_the_scale_of_b
           (1, 0) (0, 3) (1, 1) (-2) 5 N Nk).
Defined.

(** Exact arithmetic: for a non-zero [b], [project(., b)] fixes every multiple of [b],
    and it returns the zero vector exactly for the vectors whose dot product
    with [b] is [0]. *)
Theorem project_fixed_points_and_kernel :
  forall (a b : Vec2) (k : Scalar),
    b <> (0, 0) ->
    call2 project (call2 scale b k) b = Ok (call2 scale b k) /\
    (call2 project a b = Ok zero <-> call2 dot a b = 0).
Proof.
  intros a b k N. pose proof (dot_self_pos b N) as P. split.
  - rewrite project_returns by exact N. rewrite dot_scale_l.
    do 2 f_equal. field. lra.
  - apply project_zero_iff. exact N.
Qed.

Lemma project_fixed_points_and_kernel_witness :
  (1, 1) <> (0, 0) /\
  call2 project (call2 scale (1, 1) 3) (1, 1) = Ok (call2 scale (1, 1) 3) /\
  (call2 project (1, - (1)) (1, 1) = Ok zero
   <-> call2 dot (1, - (1)) (1, 1) = 0).
Proof.
  assert (N : (1, 1) <> ((0, 0) : Vec2)) by (apply vec2_neq; left; lra).
  split; [exact N |].
  apply (project_fixed_points_and_kernel (1, - (1)) (1, 1) 3 N).
Defined.

(** ** Partial application of the failing operations *)

(** X24: called with one argument and then another, [project] projects the
    second vector onto the first: [project(b)(a)] fails exactly when the
    vector supplied first, [b], is the zero vector, and otherwise returns
    [scale(b, dot(a,b)/dot(b,b))]. *)
Theorem project_partial_projects_onto_the_first_supplied :
  forall (b a : Vec2) (e : Error),
    (call1 project b a = Throw e <-> b = (0, 0)) /\
    (b <> (0, 0) ->
     call1 project b a
     = Ok (call2 scale b (call2 dot a b / call2 dot b b))).
Proof.
  intros b a e. rewrite call1_call2. split.
  - apply project_throws_iff.
  - apply project_returns.
Qed.

Lemma project_partial_projects_onto_the_first_supplied_witness :
  (1, 1) <> (0, 0) /\
  call1 project (1, 1) (1, 0)
  = Ok (call2 scale (1, 1)
          (call2 dot (1, 0) (1, 1) / call2 dot (1, 1) (1, 1))).
Proof.
  assert (N : (1, 1) <> ((0, 0) : Vec2)) by (apply vec2_neq; left; lra).
  split; [exact N |].
  destruct (project_partial_projects_onto_the_first_supplied
              (1, 1) (1, 0) AssertionError) as [_ R].
  exact (R N).
Defined.

(** X25: [toPolar] itself never throws, but the function it stores as first
    element throws on every call exactly when it was built from the zero
    vector or is called with the zero vector; on other vectors [b] it
    returns the angle between [b] and [v]. *)
Theorem toPolar_defers_the_failure_of_angle :
  forall v : Vec2,
    exists k : Vec2 -> Except Scalar,
      toPolar v = [Fn k; Num (length v)] /\
      (forall (b : Vec2) (e : Error),
          k b = Throw e <-> b = (0, 0) \/ v = (0, 0)) /\
      (forall b : Vec2,
          b <> (0, 0) -> v <> (0, 0) ->
          k b = Ok (Math.acos (call2 dot b v / (length b * length v)))).
Proof.
  intro v. exists (call1 angle v). split; [reflexivity |]. split.
  - intros b e. rewrite call1_call2. apply angle_throws_iff.
  - intros b Nb Nv. rewrite call1_call2. apply angle_returns; assumption.
Qed.

Lemma toPolar_defers_the_failure_of_angle_witness :
  exists k : Vec2 -> Except Scalar,
    toPolar (0, 0) = [Fn k; Num (length (0, 0))] /\
    k (1, 0) = Throw AssertionError.
Proof.
  destruct (toPolar_defers_the_failure_of_angle (0, 0)) as [k [E [T _]]].
  exists k. split; [exact E |].
  apply T. right. reflexivity.
Defined.

(** * The module at binary64 numbers *)

Section Binary64.

Local Open Scope float_scope.

(** ** Facts of binary64 arithmetic *)

Lemma is_nan_spec (x : float) :
  PrimFloat.is_nan x = true <-> Prim2SF x = S754_nan.
Proof.
  unfold PrimFloat.is_nan. rewrite FloatAxioms.eqb_spec. split.
  - destruct (Prim2SF x) as [s | s | | s m e]; cbn; intro H;
      try reflexivity; try discriminate.
    + destruct s; discriminate.
    + unfold SFeqb, SFcompare in H.
      rewrite Z.compare_refl, Pos.compare_cont_refl in H.
      destruct s; discriminate.
  - intros ->. reflexivity.
Qed.

Lemma is_nan_eq (x : float) : PrimFloat.is_nan x = true -> x = PrimFloat.nan.
Proof.
  intro H. apply Prim2SF_inj. apply is_nan_spec in H. rewrite H. reflexivity.
Qed.

Lemma eqb_zero_spec (x : float) :
  (x =? 0) = true <-> exists s : bool, Prim2SF x = S754_zero s.
Proof.
  rewrite FloatAxioms.eqb_spec. change (Prim2SF 0) with (S754_zero false). split.
  - destruct (Prim2SF x) as [s | s | | s m e]; cbn; intro H;
      try discriminate.
    + exists s. reflexivity.
    + destruct s; discriminate.
    + destruct s; discriminate.
  - intros [s ->]. reflexivity.
Qed.

Lemma eqb_zero_cases (x : float) : (x =? 0) = true -> x = 0 \/ x = -0.
Proof.
  intro H. apply eqb_zero_spec in H. destruct H as [[|] H].
  - right. apply Prim2SF_inj. rewrite H. reflexivity.
  - left. apply Prim2SF_inj. rewrite H. reflexivity.
Qed.


Lemma binary_round_aux_shape (sx : bool) (mx ex : Z) (lx : location) :
  let r := binary_round_aux prec emax sx mx ex lx in
  r = S754_zero sx \/ r = S754_infinity sx \/ r = S754_nan \/
  exists m e, r = S754_finite sx m e.
Proof.
  unfold binary_round_aux.
  destruct (shr_fexp prec emax mx ex lx) as [mrs' e'].
  destruct (shr_fexp prec emax _ e' loc_Exact) as [mrs'' e''].
  destruct (shr_m mrs'') as [| m | m].
  - left. reflexivity.
  - destruct (Z.leb e'' (Z.sub emax prec)).
    + right. right. right. exists m, e''. reflexivity.
    + right. left. reflexivity.
  - right. right. left. reflexivity.
Qed.

Lemma SFsqrt_shape (s : spec_float) :
  let r := SF64sqrt s in
  r = S754_nan \/ r = S754_infinity false \/ (exists z, r = S754_zero z) \/
  exists m e, r = S754_finite false m e.
Proof.
  destruct s as [z | [|] | | [|] m e]; cbn.
  - right. right. left. exists z. reflexivity.
  - left. reflexivity.
  - right. left. reflexivity.
  - left. reflexivity.
  - left. reflexivity.
  - unfold SF64sqrt, SFsqrt.
    destruct (SFsqrt_core_binary prec emax (Zpos m) e) as [[mz ez] lz].
    destruct (binary_round_aux_shape false mz ez lz)
      as [H | [H | [H | [m' [e' H]]]]]; rewrite H.
    + right. right. left. exists false. reflexivity.
    + right. left. reflexivity.
    + left. reflexivity.
    + right. right. right. exists m', e'. reflexivity.
Qed.

Lemma sqrt_never_negative (x : float) :
  (PrimFloat.sqrt x <? 0) = false /\
  ((0 <=? PrimFloat.sqrt x) = true \/
   PrimFloat.is_nan (PrimFloat.sqrt x) = true).
Proof.
  rewrite FloatAxioms.ltb_spec, FloatAxioms.leb_spec, is_nan_spec, FloatAxioms.sqrt_spec.
  change (Prim2SF 0) with (S754_zero false).
  destruct (SFsqrt_shape (Prim2SF x)) as [H | [H | [[z H] | [m [e H]]]]];
    rewrite H; cbn; auto.
Qed.

Lemma sqrt_of_zero (x : float) :
  (x =? 0) = true -> (PrimFloat.sqrt x =? 0) = true.
Proof.
  intro H. destruct (eqb_zero_cases x H) as [-> | ->]; reflexivity.
Qed.


Lemma notDeepEqual64_passes (v : Vec2Js64.Vec2) :
  Vec2Js64.deepEqual v (0, 0) = false ->
  Vec2Js64.notDeepEqual v (0, 0) = Ok tt.
Proof. intro H. unfold Vec2Js64.notDeepEqual. rewrite H. reflexivity. Qed.


(** ** Length *)




Example test_length64_3_4 : Vec2Js64.length (3, 4) = 5.
Proof. reflexivity. Qed.

(** ** Unit vectors *)





Example test_unit64_3_4 :
  Vec2Js64.unit (3, 4) = Ok (0x1.3333333333334p-1, 0x1.999999999999ap-1).
Proof. reflexivity. Qed.

Example test_unit64_of_zero : Vec2Js64.unit (0, 0) = Throw AssertionError.
Proof. reflexivity. Qed.

Lemma SFmul_comm (x y : spec_float) : SF64mul x y = SF64mul y x.
Proof.
  destruct x as [sx | sx | | sx mx ex], y as [sy | sy | | sy my ey];
    cbn; try reflexivity; try (rewrite xorb_comm; reflexivity).
  rewrite xorb_comm, Pos.mul_comm, Z.add_comm. reflexivity.
Qed.

Lemma mul64_comm (x y : float) : x * y = y * x.
Proof.
  apply Prim2SF_inj. rewrite !FloatAxioms.mul_spec. apply SFmul_comm.
Qed.

Lemma binary_round_aux_negb (s : bool) (m e : Z) (l : location) :
  binary_round_aux prec emax (negb s) m e l
  = SFopp (binary_round_aux prec emax s m e l).
Proof.
  unfold binary_round_aux.
  destruct (shr_fexp prec emax m e l) as [mrs' e'].
  destruct (shr_fexp prec emax _ e' loc_Exact) as [mrs'' e''].
  destruct (shr_m mrs'') as [| p | p]; try reflexivity.
  destruct (Z.leb e'' (Z.sub emax prec)); reflexivity.
Qed.


Lemma SFsub_as_add (x y : spec_float) : SF64sub x y = SF64add x (SFopp y).
Proof.
  destruct x as [sx | sx | | sx mx ex], y as [sy | sy | | sy my ey];
    cbn; try reflexivity; destruct sx, sy; reflexivity.
Qed.

Lemma sub64_as_add (x y : float) : x - y = x + - y.
Proof.
  apply Prim2SF_inj.
  rewrite FloatAxioms.sub_spec, FloatAxioms.add_spec, FloatAxioms.opp_spec.
  apply SFsub_as_add.
Qed.

Lemma is_finite_spec (c : float) :
  PrimFloat.is_finite c = true ->
  (exists s, Prim2SF c = S754_zero s) \/
  (exists s m e, Prim2SF c = S754_finite s m e).
Proof.
  unfold PrimFloat.is_finite, PrimFloat.is_nan, PrimFloat.is_infinity.
  rewrite !FloatAxioms.eqb_spec, FloatAxioms.abs_spec.
  change (Prim2SF infinity) with (S754_infinity false).
  destruct (Prim2SF c) as [s | [|] | | s m e]; cbn; intro H;
    try discriminate.
  - left. exists s. reflexivity.
  - right. exists s, m, e. reflexivity.
Qed.

Lemma sub64_self (x : float) :
  PrimFloat.is_finite x = true -> x - x = 0.
Proof.
  intro F. apply Prim2SF_inj. rewrite FloatAxioms.sub_spec.
  change (Prim2SF 0) with (S754_zero false).
  destruct (is_finite_spec x F) as [[s ->] | [s [m [e ->]]]]; cbn.
  - destruct s; reflexivity.
  - rewrite Z.min_id, Z.sub_diag. reflexivity.
Qed.


(** ** Normals *)




Example test_normal64_3_4 :
  Vec2Js64.normal (3, 4) = Ok (0x1.999999999999ap-1, -0x1.3333333333334p-1).
Proof. reflexivity. Qed.

(** ** Projection *)





Example test_project64_1_0_onto_1_1 :
  call2 Vec2Js64.project (1, 0) (1, 1) = Ok (0.5, 0.5).
Proof. reflexivity. Qed.

Example test_project64_onto_zero :
  call2 Vec2Js64.project (1, 0) (0, 0) = Throw AssertionError.
Proof. reflexivity. Qed.

(** ** Angles *)

Lemma coarse_math_acos_conforms : acos_conforms coarse_math.
Proof.
  intro x. cbn [Math_acos coarse_math].
  destruct ((-1 <=? x) && (x <=? 1))%bool; reflexivity.
Qed.

Lemma angle64_returns (M : MathLib) (a b : Vec2Js64.Vec2) :
  Vec2Js64.deepEqual a (0, 0) = false ->
  Vec2Js64.deepEqual b (0, 0) = false ->
  call2 (Vec2Js64.angle M) a b
  = Ok (Math_acos M (call2 Vec2Js64.dot a b
                     / (Vec2Js64.length a * Vec2Js64.length b))).
Proof.
  intros Na Nb.
  change (call2 (Vec2Js64.angle M) a b)
    with (Vec2Js64.notDeepEqual a (0, 0) ;;
          Vec2Js64.notDeepEqual b (0, 0) ;;
          Ok (Math_acos M (call2 Vec2Js64.dot a b
                           / (Vec2Js64.length a * Vec2Js64.length b)))).
  rewrite (notDeepEqual64_passes a Na), (notDeepEqual64_passes b Nb).
  reflexivity.
Qed.

(** C5, as the specification words it, fails at binary64 numbers: for
    [a = b = [2, 3]] the quotient [dot(a,b) / (length(a)*length(b))] rounds
    to [1.0000000000000002], outside the domain of [Math.acos], and the
    angle is [NaN], which is not in [[0, PI]]. *)
Lemma angle64_of_a_vector_with_itself_is_nan :
  Vec2Js64.deepEqual (2, 3) (0, 0) = false /\
  call2 Vec2Js64.dot (2, 3) (2, 3)
  / (Vec2Js64.length (2, 3) * Vec2Js64.length (2, 3))
  = 0x1.0000000000001p+0 /\
  (1 <? 0x1.0000000000001p+0) = true /\
  (forall M : MathLib,
      acos_conforms M ->
      exists theta : float,
        call2 (Vec2Js64.angle M) (2, 3) (2, 3) = Ok theta /\
        PrimFloat.is_nan theta = true /\
        (0 <=? theta) = false).
Proof.
  repeat split.
  intros M C. exists (Math_acos M 0x1.0000000000001p+0).
  split; [reflexivity |].
  pose proof (C 0x1.0000000000001p+0) as N.
  change ((-1 <=? 0x1.0000000000001p+0)
          && (0x1.0000000000001p+0 <=? 1))%bool with false in N.
  split; [exact N |].
  rewrite (is_nan_eq _ N). reflexivity.
Qed.

(** C5 (amended): for non-zero [a] and [b], [angle(a, b)] returns
    [Math.acos(dot(a,b) / (length(a)*length(b)))], the quotient [q] being
    evaluated in binary64 arithmetic and not clamped; with a [Math.acos] as
    ECMAScript specifies it, the result lies in [[0, Math.PI]] when [q] lies
    in [[-1, 1]] and is [NaN] otherwise. *)
Theorem angle64_is_acos_of_the_rounded_quotient :
  forall (M : MathLib) (a b : Vec2Js64.Vec2),
    acos_conforms M ->
    Vec2Js64.deepEqual a (0, 0) = false ->
    Vec2Js64.deepEqual b (0, 0) = false ->
    exists q theta : float,
      q = call2 Vec2Js64.dot a b
          / (Vec2Js64.length a * Vec2Js64.length b) /\
      call2 (Vec2Js64.angle M) a b = Ok theta /\
      theta = Math_acos M q /\
      ((((-1 <=? q) && (q <=? 1))%bool = true /\
        ((0 <=? theta) && (theta <=? Vec2Js64.Math_PI))%bool = true) \/
       (((-1 <=? q) && (q <=? 1))%bool = false /\
        PrimFloat.is_nan theta = true)).
Proof.
  intros M a b C Na Nb.
  exists (call2 Vec2Js64.dot a b / (Vec2Js64.length a * Vec2Js64.length b)).
  eexists. split; [reflexivity |].
  split; [apply angle64_returns; assumption |].
  split; [reflexivity |].
  pose proof (C (call2 Vec2Js64.dot a b
                 / (Vec2Js64.length a * Vec2Js64.length b))) as H.
  destruct ((-1 <=? call2 Vec2Js64.dot a b
                    / (Vec2Js64.length a * Vec2Js64.length b))
            && (call2 Vec2Js64.dot a b
                / (Vec2Js64.length a * Vec2Js64.length b) <=? 1))%bool.
  - left. split; [reflexivity | exact H].
  - right. split; [reflexivity | exact H].
Qed.

Lemma angle64_is_acos_of_the_rounded_quotient_witness :
  acos_conforms coarse_math /\
  Vec2Js64.deepEqual (1, 0) (0, 0) = false /\
  Vec2Js64.deepEqual (1, 1) (0, 0) = false /\
  exists q theta : float,
    q = call2 Vec2Js64.dot (1, 0) (1, 1)
        / (Vec2Js64.length (1, 0) * Vec2Js64.length (1, 1)) /\
    call2 (Vec2Js64.angle coarse_math) (1, 0) (1, 1) = Ok theta /\
    theta = Math_acos coarse_math q /\
    ((((-1 <=? q) && (q <=? 1))%bool = true /\
      ((0 <=? theta) && (theta <=? Vec2Js64.Math_PI))%bool = true) \/
     (((-1 <=? q) && (q <=? 1))%bool = false /\
      PrimFloat.is_nan theta = true)).
Proof.
  assert (Na : Vec2Js64.deepEqual (1, 0) (0, 0) = false) by reflexivity.
  assert (Nb : Vec2Js64.deepEqual (1, 1) (0, 0) = false) by reflexivity.
  split; [exact coarse_math_acos_conforms |].
  split; [exact Na |]. split; [exact Nb |].
  apply (angle64_is_acos_of_the_rounded_quotient coarse_math (1, 0) (1, 1)
           coarse_math_acos_conforms Na Nb).
Defined.

(** ** Rotation *)








End Binary64.

(** * Algebra that survives rounding *)

Section Binary64Algebra.

Local Open Scope float_scope.

Lemma SFadd_comm (x y : spec_float) : SF64add x y = SF64add y x.
Proof.
  destruct x as [sx | sx | | sx mx ex], y as [sy | sy | | sy my ey];
    cbn; try reflexivity; try (destruct sx, sy; reflexivity).
  rewrite Z.add_comm, Z.min_comm. reflexivity.
Qed.

Lemma add64_comm (x y : float) : x + y = y + x.
Proof.
  apply Prim2SF_inj. rewrite !FloatAxioms.add_spec. apply SFadd_comm.
Qed.

Lemma binary_normalize_opp (m e : Z) :
  m <> 0%Z ->
  binary_normalize prec emax (Z.opp m) e false
  = SFopp (binary_normalize prec emax m e false).
Proof.
  intro N. destruct m as [| p | p]; [contradiction | |]; cbn [Z.opp];
    unfold binary_normalize, binary_round;
    destruct (shl_align p e _) as [mz ez].
  - apply (binary_round_aux_negb false).
  - rewrite (binary_round_aux_negb false).
    destruct (binary_round_aux _ _ _ _ _ _) as [z | z | | z q x]; cbn;
      try rewrite negb_involutive; reflexivity.
Qed.

Lemma SFsub_swap (x y : spec_float) :
  SF64sub y x = SFopp (SF64sub x y) \/ SF64sub y x = SF64sub x y.
Proof.
  destruct x as [sx | sx | | sx mx ex], y as [sy | sy | | sy my ey];
    cbn; auto; try (destruct sx, sy; auto; fail);
    try (left; rewrite negb_involutive; reflexivity).
  rewrite (Z.min_comm ey ex).
  set (A := cond_Zopp sx (Zpos (fst (shl_align mx ex (Z.min ex ey))))).
  set (B := cond_Zopp sy (Zpos (fst (shl_align my ey (Z.min ex ey))))).
  replace (Z.sub B A) with (Z.opp (Z.sub A B)) by lia.
  destruct (Z.eq_dec (Z.sub A B) 0) as [E | N].
  - right. rewrite E. reflexivity.
  - left. apply binary_normalize_opp. exact N.
Qed.

Lemma SFmul_opp_opp (r : spec_float) :
  SF64mul (SFopp r) (SFopp r) = SF64mul r r.
Proof.
  destruct r as [s | s | | s m e]; cbn; try reflexivity;
    destruct s; reflexivity.
Qed.

Lemma square_of_difference (x y : float) :
  (x - y) * (x - y) = (y - x) * (y - x).
Proof.
  apply Prim2SF_inj. rewrite !FloatAxioms.mul_spec, !FloatAxioms.sub_spec.
  destruct (SFsub_swap (Prim2SF x) (Prim2SF y)) as [E | E]; rewrite E;
    [rewrite SFmul_opp_opp |]; reflexivity.
Qed.

Lemma mul64_opp_opp (x y : float) : (- x) * (- y) = x * y.
Proof.
  apply Prim2SF_inj. rewrite !FloatAxioms.mul_spec, !FloatAxioms.opp_spec.
  destruct (Prim2SF x) as [sx | sx | | sx mx ex],
           (Prim2SF y) as [sy | sy | | sy my ey];
    cbn; try reflexivity; destruct sx, sy; reflexivity.
Qed.

Lemma dot64_comm (a b : Vec2Js64.Vec2) :
  call2 Vec2Js64.dot a b = call2 Vec2Js64.dot b a.
Proof.
  change (fst a * fst b + snd a * snd b = fst b * fst a + snd b * snd a).
  rewrite (mul64_comm (fst a)), (mul64_comm (snd a)). reflexivity.
Qed.

Lemma length64_sub_swap (a b : Vec2Js64.Vec2) :
  Vec2Js64.length (call2 Vec2Js64.sub a b)
  = Vec2Js64.length (call2 Vec2Js64.sub b a).
Proof.
  change (PrimFloat.sqrt ((fst a - fst b) * (fst a - fst b)
                          + (snd a - snd b) * (snd a - snd b))
          = PrimFloat.sqrt ((fst b - fst a) * (fst b - fst a)
                            + (snd b - snd a) * (snd b - snd a))).
  rewrite (square_of_difference (fst a)), (square_of_difference (snd a)).
  reflexivity.
Qed.

(** X2: at binary64 numbers, [add] is commutative and [sub(a, b)] is
    [add(a, negate(b))], exactly. *)
Theorem add64_commutes_and_sub64_adds_the_negation :
  forall a b : Vec2Js64.Vec2,
    call2 Vec2Js64.add a b = call2 Vec2Js64.add b a /\
    call2 Vec2Js64.sub a b = call2 Vec2Js64.add a (Vec2Js64.negate b).
Proof.
  intros [ax ay] [bx by']. split.
  - change ((ax + bx, ay + by') = (bx + ax, by' + ay)).
    rewrite (add64_comm ax), (add64_comm ay). reflexivity.
  - change ((ax - bx, ay - by') = (ax + - bx, ay + - by')).
    rewrite (sub64_as_add ax), (sub64_as_add ay). reflexivity.
Qed.

(** X3: at binary64 numbers, [dot] is symmetric, and negating both vectors
    does not change it, exactly. *)
Theorem dot64_is_symmetric :
  forall a b : Vec2Js64.Vec2,
    call2 Vec2Js64.dot a b = call2 Vec2Js64.dot b a /\
    call2 Vec2Js64.dot (Vec2Js64.negate a) (Vec2Js64.negate b)
    = call2 Vec2Js64.dot a b.
Proof.
  intros a b. split; [apply dot64_comm |].
  change ((- fst a) * (- fst b) + (- snd a) * (- snd b)
          = fst a * fst b + snd a * snd b).
  rewrite !mul64_opp_opp. reflexivity.
Qed.

(** X8: at binary64 numbers, [distance] is symmetric, exactly; it is never
    negative ([distance(a, b) >= 0] holds unless it is [NaN]); and the
    distance of a vector with finite components to itself is [0]. *)
Theorem distance64_is_symmetric_and_never_negative :
  forall a b : Vec2Js64.Vec2,
    call2 Vec2Js64.distance a b = call2 Vec2Js64.distance b a /\
    (call2 Vec2Js64.distance a b <? 0) = false /\
    ((0 <=? call2 Vec2Js64.distance a b) = true \/
     PrimFloat.is_nan (call2 Vec2Js64.distance a b) = true) /\
    (PrimFloat.is_finite (fst a) = true ->
     PrimFloat.is_finite (snd a) = true ->
     call2 Vec2Js64.distance a a = 0).
Proof.
  intros a b. split; [apply length64_sub_swap |].
  change (call2 Vec2Js64.distance a b)
    with (PrimFloat.sqrt
            (call2 Vec2Js64.dot (call2 Vec2Js64.sub a b)
               (call2 Vec2Js64.sub a b))).
  destruct (sqrt_never_negative
              (call2 Vec2Js64.dot (call2 Vec2Js64.sub a b)
                 (call2 Vec2Js64.sub a b))) as [N P].
  split; [exact N |]. split; [exact P |].
  intros Fx Fy.
  change (PrimFloat.sqrt ((fst a - fst a) * (fst a - fst a)
                          + (snd a - snd a) * (snd a - snd a)) = 0).
  rewrite (sub64_self _ Fx), (sub64_self _ Fy). reflexivity.
Qed.

Lemma distance64_is_symmetric_and_never_negative_witness :
  PrimFloat.is_finite 3 = true /\ PrimFloat.is_finite 4 = true /\
  call2 Vec2Js64.distance (3, 4) (3, 4) = 0.
Proof.
  assert (Fx : PrimFloat.is_finite (fst (3, 4)) = true) by reflexivity.
  assert (Fy : PrimFloat.is_finite (snd (3, 4)) = true) by reflexivity.
  split; [exact Fx |]. split; [exact Fy |].
  destruct (distance64_is_symmetric_and_never_negative (3, 4) (3, 4))
    as [_ [_ [_ R]]].
  exact (R Fx Fy).
Defined.

(** X26: at binary64 numbers too, the symmetric operations [add], [dot],
    [distance] and [angle] give the same result in both call shapes with the
    arguments in the written order, [op(a)(b) = op(a, b)], the failing calls
    of [angle] included. *)
Theorem symmetric_operations64_hide_the_binding_order :
  forall (M : MathLib) (a b : Vec2Js64.Vec2),
    call1 Vec2Js64.add a b = call2 Vec2Js64.add a b /\
    call1 Vec2Js64.dot a b = call2 Vec2Js64.dot a b /\
    call1 Vec2Js64.distance a b = call2 Vec2Js64.distance a b /\
    call1 (Vec2Js64.angle M) a b = call2 (Vec2Js64.angle M) a b.
Proof.
  intros M a b. rewrite !call1_call2. repeat split.
  - destruct a as [ax ay], b as [bx by'].
    change ((bx + ax, by' + ay) = (ax + bx, ay + by')).
    rewrite (add64_comm ax), (add64_comm ay). reflexivity.
  - apply dot64_comm.
  - apply length64_sub_swap.
  - change (call2 (Vec2Js64.angle M) b a)
      with (Vec2Js64.notDeepEqual b (0, 0) ;;
            Vec2Js64.notDeepEqual a (0, 0) ;;
            Ok (Math_acos M (call2 Vec2Js64.dot b a
                             / (Vec2Js64.length b * Vec2Js64.length a)))).
    change (call2 (Vec2Js64.angle M) a b)
      with (Vec2Js64.notDeepEqual a (0, 0) ;;
            Vec2Js64.notDeepEqual b (0, 0) ;;
            Ok (Math_acos M (call2 Vec2Js64.dot a b
                             / (Vec2Js64.length a * Vec2Js64.length b)))).
    unfold Vec2Js64.notDeepEqual.
    destruct (Vec2Js64.deepEqual a (0, 0)), (Vec2Js64.deepEqual b (0, 0));
      cbn [bind]; try reflexivity.
    rewrite (dot64_comm b a), (mul64_comm (Vec2Js64.length b)).
    reflexivity.
Qed.

End Binary64Algebra.
